(** * xverse-core, [wallet/index.ts]: key derivation, validators and seed encryption

    A shallow embedding of the wallet module.  The module sequences calls to
    external libraries (bip39, bip32, ecpair, c32check, ...) and reshapes what
    they return; the libraries are an interface here ([Collaborators]) and the
    module's own control flow, string templating and error handling are
    embedded function by function, in the order the source evaluates them. *)

From Stdlib Require Import ZArith String Ascii List Lia Bool DecimalString.
From Stdlib Require Import Strings.Byte.
From Stdlib Require DecimalZ DecimalFacts.
From ExtLib Require Import Structures.Monad Structures.MonadExc Data.Monads.EitherMonad.
Import ListNotations MonadNotation.
Open Scope string_scope.
Open Scope monad_scope.

(** ** JavaScript values and effects *)

(** What a [throw] carries.  [JsTypeError] is what the engine raises on a
    property access through [undefined]; [JsRangeError] what [BigInt] raises on
    a non-integral number; libraries throw any of the three. *)
Inductive JsException : Type :=
| JsError (message : string)
| JsTypeError (message : string)
| JsRangeError (message : string).

(** A call either throws or returns; an [async] function either rejects or
    resolves.  [inl] is the thrown value, [inr] the returned one. *)
Definition Exc : Type -> Type := sum JsException.
Definition Promise : Type -> Type := Exc.

Definition ok {A : Type} (a : A) : Exc A := inr a.
Definition throw {A : Type} (e : JsException) : Exc A := inl e.

(** [try { body } catch (error) { handler }]. *)
Definition try_catch {A : Type} (body : Exc A) (handler : JsException -> Exc A) : Exc A :=
  catch body handler.

(** A [Buffer] and a [Uint8Array] are byte sequences. *)
Definition Buffer : Type := list byte.
Definition Uint8Array : Type := list byte.

(** [Buffer.from(buffer)] copies its argument. *)
Definition Buffer_from (b : Buffer) : Buffer := b.

(** [bigint.toString()]: decimal digits, with a leading [-] below zero. *)
Definition bigint_toString (z : Z) : string := NilZero.string_of_int (Z.to_int z).

(** A JS [number] as [BigInt(number)] tells numbers apart: an integer
    converts; a finite number with a fractional part, [NaN] and the two
    infinities do not.  A fractional number is kept by the decimal text the
    engine prints for it (for instance [1.5]), which is all the conversion
    error shows of it. *)
Inductive JsNumber : Type :=
| Integral (z : Z)
| Fractional (printed : string)
| NaN
| Infinity (negative : bool).

(** The range error of [BigInt] on a number that is not an integer.  It
    names the number as printed; the wording is the engine's (V8's here), so
    statements about it speak of a [JsRangeError] and leave the message
    open. *)
Definition not_an_integer (printed : string) : JsException :=
  JsRangeError
    ("The number " ++ printed ++ " cannot be converted to a BigInt because it is not an integer").

(** [BigInt(number)]. *)
Definition BigInt (n : JsNumber) : Exc Z :=
  match n with
  | Integral z => ok z
  | Fractional printed => throw (not_an_integer printed)
  | NaN => throw (not_an_integer "NaN")
  | Infinity negative => throw (not_an_integer (if negative then "-Infinity" else "Infinity"))
  end.

(** Truthiness of a number and of a string. *)
Definition truthy_number (n : Z) : bool := negb (Z.eqb n 0).
Definition truthy_string (s : string) : bool :=
  match s with
  | EmptyString => false
  | String _ _ => true
  end.

(** *** Hexadecimal text *)

Definition hex_digit (n : N) : ascii :=
  if (n <? 10)%N then ascii_of_N (48 + n) else ascii_of_N (87 + n).

Definition byte_to_hex (b : byte) : string :=
  let n := Byte.to_N b in
  String (hex_digit (n / 16)) (String (hex_digit (n mod 16)) EmptyString).

(** [buffer.toString('hex')], and [hex.encode] of @scure/base. *)
Fixpoint Buffer_toString_hex (b : Buffer) : string :=
  match b with
  | [] => EmptyString
  | x :: rest => byte_to_hex x ++ Buffer_toString_hex rest
  end.

Definition hex_encode (b : Uint8Array) : string := Buffer_toString_hex b.

Definition hex_value (c : ascii) : option N :=
  let n := N_of_ascii c in
  if ((48 <=? n) && (n <=? 57))%N then Some (n - 48)%N
  else if ((97 <=? n) && (n <=? 102))%N then Some (n - 87)%N
  else if ((65 <=? n) && (n <=? 70))%N then Some (n - 55)%N
  else None.

Fixpoint hex_decode_pairs (s : string) : option (list byte) :=
  match s with
  | EmptyString => Some []
  | String _ EmptyString => None
  | String hi (String lo rest) =>
      match hex_value hi, hex_value lo, hex_decode_pairs rest with
      | Some h, Some l, Some bytes =>
          match Byte.of_N (16 * h + l) with
          | Some b => Some (b :: bytes)
          | None => None
          end
      | _, _, _ => None
      end
  end.

(** [hex.decode] of @scure/base: an odd length or a character outside
    [0-9a-fA-F] throws. *)
Definition hex_decode (s : string) : Exc Uint8Array :=
  match hex_decode_pairs s with
  | Some bytes => ok bytes
  | None => throw (JsError "hex.decode: invalid hex string")
  end.

(** ** Enumerations of the module and of @stacks/transactions *)

(** [NetworkType = 'Mainnet' | 'Testnet']. *)
Inductive NetworkType : Type := Mainnet | Testnet.

Module ChainID.
Inductive t : Type := Mainnet | Testnet.
Definition value (c : t) : Z :=
  match c with
  | Mainnet => 1
  | Testnet => 2147483648
  end.
End ChainID.

Module TransactionVersion.
Inductive t : Type := Mainnet | Testnet.
Definition value (v : t) : Z :=
  match v with
  | Mainnet => 0
  | Testnet => 128
  end.
End TransactionVersion.

Module AddressVersion.
Definition MainnetSingleSig : Z := 22.
Definition MainnetMultiSig : Z := 20.
Definition TestnetSingleSig : Z := 26.
Definition TestnetMultiSig : Z := 21.
End AddressVersion.

(** ** Constants of [../constant] *)

(** The constant module is not part of the sources at hand: its values are
    parameters of the development. *)
Class Constants : Type := {
  BTC_SEGWIT_PATH_PURPOSE : string;
  BTC_TAPROOT_PATH_PURPOSE : string;
  BTC_WRAPPED_SEGWIT_PATH_PURPOSE : string;
  ENTROPY_BYTES : N;
  STX_PATH_WITHOUT_INDEX : string
}.

(** ** External collaborators *)

(** [Network] of bitcoin-address-validation. *)
Module btcAddressNetwork.
Inductive t : Type := mainnet | testnet | regtest.
End btcAddressNetwork.

(** The libraries the module imports, and the two helpers of the repository
    ([ecPairToHexString] of [./helper], [getBtcNetwork] of
    [../transactions/btcNetwork]) that are not part of the sources at hand.
    Every call may throw; a property read ([.privateKey], [.publicKey],
    [.address]) does not.  A value the type annotations call present but
    that may be [undefined] at run time is an [option]. *)
Class Collaborators : Type := {
  (* bip39 *)
  bip39_mnemonicToSeed : string -> Promise Buffer;
  bip39_entropyToMnemonic : Buffer -> Exc string;
  (* ../utils/bip32 *)
  BIP32Interface : Type;
  bip32_fromSeed : Buffer -> Exc BIP32Interface;
  bip32_derivePath : BIP32Interface -> string -> Exc BIP32Interface;
  bip32_privateKey : BIP32Interface -> option Buffer;
  bip32_publicKey : BIP32Interface -> Buffer;
  (* ../utils/ecpair and ./helper *)
  ECPairInterface : Type;
  ECPair_fromPrivateKey : option Buffer -> Exc ECPairInterface;
  ECPair_publicKey : ECPairInterface -> Buffer;
  ecPairToHexString : ECPairInterface -> Exc string;
  (* @stacks/transactions *)
  StacksPrivateKey : Type;
  StacksPublicKey : Type;
  createStacksPrivateKey : string -> Exc StacksPrivateKey;
  getPublicKey : StacksPrivateKey -> Exc StacksPublicKey;
  publicKeyToString : StacksPublicKey -> Exc string;
  getAddressFromPrivateKey : string -> TransactionVersion.t -> Exc string;
  (* @scure/btc-signer and ../transactions/btcNetwork *)
  BtcSignerNetwork : Type;
  getBtcNetwork : NetworkType -> Exc BtcSignerNetwork;
  btc_getAddress : string -> Uint8Array -> BtcSignerNetwork -> Exc (option string);
  (* bitcoinjs-lib *)
  BitcoinJsNetwork : Type;
  Payment : Type;
  networks_bitcoin : BitcoinJsNetwork;
  networks_testnet : BitcoinJsNetwork;
  payments_p2wpkh : Buffer -> BitcoinJsNetwork -> Exc Payment;
  payments_p2sh : Payment -> Buffer -> BitcoinJsNetwork -> Exc Payment;
  payment_address : Payment -> option string;
  (* @noble/secp256k1 *)
  schnorr_getPublicKey : Uint8Array -> Exc Uint8Array;
  (* c32check: the decoded pair is (version, hash) *)
  c32addressDecode : string -> Exc (Z * string);
  (* bitcoin-address-validation *)
  validate : string -> btcAddressNetwork.t -> Exc bool
}.

(** [crypto.randomBytes] is the one collaborator that is not a function of
    its arguments: it draws from the system's entropy, modelled as a pool of
    bytes that every draw shortens. *)
Definition Entropy : Type := list byte.

Definition crypto_randomBytes (size : N) (pool : Entropy) : Exc (Buffer * Entropy) :=
  if (N.of_nat (List.length pool) <? size)%N
  then throw (JsError "crypto.randomBytes: entropy source exhausted")
  else ok (firstn (N.to_nat size) pool, skipn (N.to_nat size) pool).

(** ** The wallet module *)

(** What [passwordHashGenerator] resolves to. *)
Record PasswordHash : Type := {
  salt : string;
  hash : string
}.

(** The caller's callbacks are asynchronous functions of their arguments:
    each either rejects or resolves. *)
Module EncryptMnemonicArgs.
Record t : Type := {
  password : string;
  seed : string;
  passwordHashGenerator : string -> Promise PasswordHash;
  mnemonicEncryptionHandler : string -> string -> Promise Buffer
}.
End EncryptMnemonicArgs.

(** The decryption handler takes [Buffer | string]: [inl] a buffer, [inr] a
    string. *)
Module DecryptMnemonicArgs.
Record t : Type := {
  password : string;
  encryptedSeed : string;
  passwordHashGenerator : string -> Promise PasswordHash;
  mnemonicDecryptionHandler : Buffer + string -> string -> Promise string
}.
End DecryptMnemonicArgs.

Section Wallet.

Context {K : Constants} {L : Collaborators}.

(** [Keychain] of [types/api/xverse/wallet]. *)
Record Keychain : Type := {
  childKey : BIP32Interface;
  address : string;
  privateKey : string
}.

(** [BaseWallet] of [types/wallet].  The two addresses are read through a
    non-null assertion, which is erased at run time: what the library handed
    back, [undefined] included, is what the record holds. *)
Record BaseWallet : Type := {
  stxAddress : string;
  btcAddress : option string;
  ordinalsAddress : option string;
  masterPubKey : string;
  stxPublicKey : string;
  btcPublicKey : string;
  ordinalsPublicKey : string;
  seedPhrase : string
}.

(** [x.toString('hex')] where [x] may be [undefined]. *)
Definition toString_hex_of (x : option Buffer) : Exc string :=
  match x with
  | Some b => ok (Buffer_toString_hex b)
  | None => throw (JsTypeError "Cannot read properties of undefined (reading 'toString')")
  end.

Definition derivationPaths (chain : ChainID.t) : string :=
  match chain with
  | ChainID.Mainnet => STX_PATH_WITHOUT_INDEX
  | ChainID.Testnet => STX_PATH_WITHOUT_INDEX
  end.

Definition getDerivationPath (chain : ChainID.t) (index : Z) : string :=
  derivationPaths chain ++ bigint_toString index.

(** [index = 0n]: an omitted index is zero. *)
Definition deriveStxAddressChain (chain : ChainID.t) (index : option Z)
    (rootNode : BIP32Interface) : Exc Keychain :=
  let index := match index with Some i => i | None => 0%Z end in
  childKey <- bip32_derivePath rootNode (getDerivationPath chain index) ;;
  match bip32_privateKey childKey with
  | None =>
      throw (JsError "Unable to derive private key from `rootNode`, bip32 master keychain")
  | Some childPrivateKey =>
      ecPair <- ECPair_fromPrivateKey (Some childPrivateKey) ;;
      privateKey <- ecPairToHexString ecPair ;;
      let txVersion :=
        match chain with
        | ChainID.Mainnet => TransactionVersion.Mainnet
        | ChainID.Testnet => TransactionVersion.Testnet
        end in
      address <- getAddressFromPrivateKey privateKey txVersion ;;
      ret {| childKey := childKey; address := address; privateKey := privateKey |}
  end.

Definition generateMnemonic (pool : Entropy) : Exc (string * Entropy) :=
  '(entropy, pool') <- crypto_randomBytes ENTROPY_BYTES pool ;;
  mnemonic <- bip39_entropyToMnemonic entropy ;;
  ret (mnemonic, pool').

(** [account ? account.toString() : '0']: an omitted account and [0n] are
    both falsy. *)
Definition accountIndex_of (account : option Z) : string :=
  match account with
  | Some a => if truthy_number a then bigint_toString a else "0"
  | None => "0"
  end.

Definition getBitcoinDerivationPath (account : option Z) (index : Z)
    (network : NetworkType) : string :=
  let accountIndex := accountIndex_of account in
  match network with
  | Mainnet =>
      BTC_WRAPPED_SEGWIT_PATH_PURPOSE ++ "0'/" ++ accountIndex ++ "'/0/" ++ bigint_toString index
  | Testnet =>
      BTC_WRAPPED_SEGWIT_PATH_PURPOSE ++ "1'/" ++ accountIndex ++ "'/0/" ++ bigint_toString index
  end.

Definition getSegwitDerivationPath (account : option Z) (index : Z)
    (network : NetworkType) : string :=
  let accountIndex := accountIndex_of account in
  match network with
  | Mainnet =>
      BTC_SEGWIT_PATH_PURPOSE ++ "0'/" ++ accountIndex ++ "'/0/" ++ bigint_toString index
  | Testnet =>
      BTC_SEGWIT_PATH_PURPOSE ++ "1'/" ++ accountIndex ++ "'/0/" ++ bigint_toString index
  end.

Definition getTaprootDerivationPath (account : option Z) (index : Z)
    (network : NetworkType) : string :=
  let accountIndex := accountIndex_of account in
  match network with
  | Mainnet =>
      BTC_TAPROOT_PATH_PURPOSE ++ "0'/" ++ accountIndex ++ "'/0/" ++ bigint_toString index
  | Testnet =>
      BTC_TAPROOT_PATH_PURPOSE ++ "1'/" ++ accountIndex ++ "'/0/" ++ bigint_toString index
  end.

Definition walletFromSeedPhrase (mnemonic : string) (index : Z) (network : NetworkType)
    : Promise BaseWallet :=
  seed <- bip39_mnemonicToSeed mnemonic ;;
  rootNode <- bip32_fromSeed (Buffer_from seed) ;;
  let deriveStxAddressKeychain :=
    deriveStxAddressChain
      (match network with Mainnet => ChainID.Mainnet | Testnet => ChainID.Testnet end)
      (Some index) in
  keychain <- deriveStxAddressKeychain rootNode ;;
  let stxAddress := address keychain in
  master <- bip32_fromSeed seed ;;
  let masterPubKey := Buffer_toString_hex (bip32_publicKey master) in
  stacksPrivateKey <- createStacksPrivateKey (privateKey keychain) ;;
  stacksPublicKey <- getPublicKey stacksPrivateKey ;;
  stxPublicKey <- publicKeyToString stacksPublicKey ;;
  (* derive segwit btc address *)
  btcChild <- bip32_derivePath master (getBitcoinDerivationPath None index network) ;;
  keyPair <- ECPair_fromPrivateKey (bip32_privateKey btcChild) ;;
  (* derive taproot btc address *)
  taprootBtcChild <- bip32_derivePath master (getTaprootDerivationPath None index network) ;;
  taprootHex <- toString_hex_of (bip32_privateKey taprootBtcChild) ;;
  privKey <- hex_decode taprootHex ;;
  btcNetwork <- getBtcNetwork network ;;
  ordinalsAddress <- btc_getAddress "tr" privKey btcNetwork ;;
  redeem <- payments_p2wpkh (ECPair_publicKey keyPair)
              (match network with Mainnet => networks_bitcoin | Testnet => networks_testnet end) ;;
  segwitBtcAddress <- payments_p2sh redeem (ECPair_publicKey keyPair)
              (match network with Mainnet => networks_bitcoin | Testnet => networks_testnet end) ;;
  let btcAddress := payment_address segwitBtcAddress in
  let btcPublicKey := Buffer_toString_hex (ECPair_publicKey keyPair) in
  taprootInternalPubKey <- schnorr_getPublicKey privKey ;;
  ret {| stxAddress := stxAddress;
         btcAddress := btcAddress;
         ordinalsAddress := ordinalsAddress;
         masterPubKey := masterPubKey;
         stxPublicKey := stxPublicKey;
         btcPublicKey := btcPublicKey;
         ordinalsPublicKey := hex_encode taprootInternalPubKey;
         seedPhrase := mnemonic |}.

Definition newWallet (pool : Entropy) : Promise (BaseWallet * Entropy) :=
  '(mnemonic, pool') <- generateMnemonic pool ;;
  wallet <- walletFromSeedPhrase mnemonic 0 Mainnet ;;
  ret (wallet, pool').

Definition getBtcPrivateKey (seedPhrase : string) (index : Z) (network : NetworkType)
    : Promise string :=
  seed <- bip39_mnemonicToSeed seedPhrase ;;
  master <- bip32_fromSeed seed ;;
  btcChild <- bip32_derivePath master (getBitcoinDerivationPath None index network) ;;
  toString_hex_of (bip32_privateKey btcChild).

Definition getBtcTaprootPrivateKey (seedPhrase : string) (index : Z) (network : NetworkType)
    : Promise string :=
  seed <- bip39_mnemonicToSeed seedPhrase ;;
  master <- bip32_fromSeed seed ;;
  btcChild <- bip32_derivePath master (getTaprootDerivationPath None index network) ;;
  toString_hex_of (bip32_privateKey btcChild).

Definition validateStxAddress (stxAddress : string) (network : NetworkType) : Exc bool :=
  try_catch
    (result <- c32addressDecode stxAddress ;;
     if truthy_number (fst result) && truthy_string (snd result) then
       let addressVersion := fst result in
       match network with
       | Mainnet =>
           if negb ((addressVersion =? AddressVersion.MainnetSingleSig)%Z
                    || (addressVersion =? AddressVersion.MainnetMultiSig)%Z)
           then ret false
           else ret true
       | Testnet =>
           if negb (fst result =? AddressVersion.TestnetSingleSig)%Z
              && negb (fst result =? AddressVersion.TestnetMultiSig)%Z
           then ret false
           else ret true
       end
     else ret false)
    (fun error => ret false).

Definition validateBtcAddress (btcAddress : string) (network : NetworkType) : Exc bool :=
  let btcNetwork :=
    match network with
    | Mainnet => btcAddressNetwork.mainnet
    | Testnet => btcAddressNetwork.testnet
    end in
  try_catch (validate btcAddress btcNetwork) (fun error => ret false).

Definition encryptMnemonicWithCallback (cb : EncryptMnemonicArgs.t) : Promise string :=
  generated <- EncryptMnemonicArgs.passwordHashGenerator cb (EncryptMnemonicArgs.password cb) ;;
  encryptedSeedBuffer <-
    EncryptMnemonicArgs.mnemonicEncryptionHandler cb (EncryptMnemonicArgs.seed cb) (hash generated) ;;
  ret (Buffer_toString_hex encryptedSeedBuffer).

Definition decryptMnemonicWithCallback (cb : DecryptMnemonicArgs.t) : Promise string :=
  generated <- DecryptMnemonicArgs.passwordHashGenerator cb (DecryptMnemonicArgs.password cb) ;;
  seedPhrase <-
    DecryptMnemonicArgs.mnemonicDecryptionHandler cb
      (inr (DecryptMnemonicArgs.encryptedSeed cb)) (hash generated) ;;
  ret seedPhrase.

Definition getStxAddressKeyChain (mnemonic : string) (chainID : ChainID.t)
    (accountIndex : JsNumber) : Promise Keychain :=
  seed <- bip39_mnemonicToSeed mnemonic ;;
  rootNode <- bip32_fromSeed (Buffer_from seed) ;;
  index <- BigInt accountIndex ;;
  let deriveStxAddressKeychain := deriveStxAddressChain chainID (Some index) in
  deriveStxAddressKeychain rootNode.

(** *** Vocabulary of the statements *)

(** The transaction version [deriveStxAddressChain] selects for a chain. *)
Definition txVersion_of (chain : ChainID.t) : TransactionVersion.t :=
  match chain with
  | ChainID.Mainnet => TransactionVersion.Mainnet
  | ChainID.Testnet => TransactionVersion.Testnet
  end.

Definition index_or_default (index : option Z) : Z :=
  match index with
  | Some i => i
  | None => 0%Z
  end.

Definition bitcoinJsNetwork_of (network : NetworkType) : BitcoinJsNetwork :=
  match network with
  | Mainnet => networks_bitcoin
  | Testnet => networks_testnet
  end.

Definition chainID_of (network : NetworkType) : ChainID.t :=
  match network with
  | Mainnet => ChainID.Mainnet
  | Testnet => ChainID.Testnet
  end.

(** The calls behind a returned wallet, in the order the module makes them. *)
Inductive WalletRun (mnemonic : string) (index : Z) (network : NetworkType)
    : BaseWallet -> Prop :=
| wallet_run seed master keychain stacksPublicKey btcChild keyPair
    taprootBtcChild taprootPrivateKey ordinals segwitBtcAddress taprootInternalPubKey :
    bip39_mnemonicToSeed mnemonic = ok seed ->
    bip32_fromSeed seed = ok master ->
    deriveStxAddressChain (chainID_of network) (Some index) master = ok keychain ->
    (stacksPrivateKey <- createStacksPrivateKey (privateKey keychain) ;;
     stacksPublicKey <- getPublicKey stacksPrivateKey ;;
     publicKeyToString stacksPublicKey) = ok stacksPublicKey ->
    bip32_derivePath master (getBitcoinDerivationPath None index network) = ok btcChild ->
    ECPair_fromPrivateKey (bip32_privateKey btcChild) = ok keyPair ->
    bip32_derivePath master (getTaprootDerivationPath None index network)
      = ok taprootBtcChild ->
    bip32_privateKey taprootBtcChild = Some taprootPrivateKey ->
    (btcNetwork <- getBtcNetwork network ;;
     btc_getAddress "tr" taprootPrivateKey btcNetwork) = ok ordinals ->
    (redeem <- payments_p2wpkh (ECPair_publicKey keyPair) (bitcoinJsNetwork_of network) ;;
     payments_p2sh redeem (ECPair_publicKey keyPair) (bitcoinJsNetwork_of network))
      = ok segwitBtcAddress ->
    schnorr_getPublicKey taprootPrivateKey = ok taprootInternalPubKey ->
    WalletRun mnemonic index network
      {| stxAddress := address keychain;
         btcAddress := payment_address segwitBtcAddress;
         ordinalsAddress := ordinals;
         masterPubKey := Buffer_toString_hex (bip32_publicKey master);
         stxPublicKey := stacksPublicKey;
         btcPublicKey := Buffer_toString_hex (ECPair_publicKey keyPair);
         ordinalsPublicKey := hex_encode taprootInternalPubKey;
         seedPhrase := mnemonic |}.

(** [ECPair.fromPrivateKey(undefined)] does not return: the ecpair library
    type-checks its argument and throws.  The wrapped-segwit branch of
    [walletFromSeedPhrase] has no check of its own and relies on this. *)
Definition ECPair_rejects_undefined : Prop :=
  forall pair, ECPair_fromPrivateKey None <> ok pair.

(** The address versions [validateStxAddress] compares against, per network. *)
Definition stx_versions (network : NetworkType) : list Z :=
  match network with
  | Mainnet => [AddressVersion.MainnetSingleSig; AddressVersion.MainnetMultiSig]
  | Testnet => [AddressVersion.TestnetSingleSig; AddressVersion.TestnetMultiSig]
  end.

Definition other_network (network : NetworkType) : NetworkType :=
  match network with
  | Mainnet => Testnet
  | Testnet => Mainnet
  end.

Definition btcAddressNetwork_of (network : NetworkType) : btcAddressNetwork.t :=
  match network with
  | Mainnet => btcAddressNetwork.mainnet
  | Testnet => btcAddressNetwork.testnet
  end.

(** The reading of the validator's contract that looks at the version byte
    alone: whatever decodes to one of the network's two versions is accepted. *)
Definition accepts_every_decodable_version : Prop :=
  forall stxAddress network version hash160,
    c32addressDecode stxAddress = ok (version, hash160) ->
    In version (stx_versions network) ->
    validateStxAddress stxAddress network = ok true.

End Wallet.

(** ** The wallet against collaborators with state *)

(** Above, every collaborator is a function of its arguments.  Nothing in the
    language says so: a call may read and change the state of the world (a
    cache, a counter, the entropy of the system).  Here a call takes the world
    and hands it back, and the wallet functions that the question of
    determinism is about are written against such calls, step for step as the
    source has them. *)
Section Effectful.

Variable World : Type.

Context {K : Constants} {L : Collaborators}.

(** A call that may throw, and may read and change the world. *)
Definition Eff (A : Type) : Type := World -> Exc A * World.

#[global] Instance Monad_Eff : Monad Eff := {|
  ret := fun A (a : A) (w : World) => (ok a, w);
  bind := fun A B (c : Eff A) (k : A -> Eff B) (w : World) =>
    match c w with
    | (inl e, w') => (inl e, w')
    | (inr a, w') => k a w'
    end
|}.

(** A computation of the language itself, which the world has no part in. *)
Definition liftExc {A : Type} (c : Exc A) : Eff A := fun w => (c, w).

(** The calls [walletFromSeedPhrase], [generateMnemonic] and [newWallet]
    make, over the value types of [Collaborators]. *)
Record Effects : Type := {
  eff_randomBytes : N -> Eff Buffer;
  eff_entropyToMnemonic : Buffer -> Eff string;
  eff_mnemonicToSeed : string -> Eff Buffer;
  eff_fromSeed : Buffer -> Eff BIP32Interface;
  eff_derivePath : BIP32Interface -> string -> Eff BIP32Interface;
  eff_ECPair_fromPrivateKey : option Buffer -> Eff ECPairInterface;
  eff_ecPairToHexString : ECPairInterface -> Eff string;
  eff_createStacksPrivateKey : string -> Eff StacksPrivateKey;
  eff_getPublicKey : StacksPrivateKey -> Eff StacksPublicKey;
  eff_publicKeyToString : StacksPublicKey -> Eff string;
  eff_getAddressFromPrivateKey : string -> TransactionVersion.t -> Eff string;
  eff_getBtcNetwork : NetworkType -> Eff BtcSignerNetwork;
  eff_btc_getAddress : string -> Uint8Array -> BtcSignerNetwork -> Eff (option string);
  eff_payments_p2wpkh : Buffer -> BitcoinJsNetwork -> Eff Payment;
  eff_payments_p2sh : Payment -> Buffer -> BitcoinJsNetwork -> Eff Payment;
  eff_schnorr_getPublicKey : Uint8Array -> Eff Uint8Array
}.

Variable R : Effects.

Definition deriveStxAddressChain_eff (chain : ChainID.t) (index : option Z)
    (rootNode : BIP32Interface) : Eff Keychain :=
  let index := match index with Some i => i | None => 0%Z end in
  childKey <- eff_derivePath R rootNode (getDerivationPath chain index) ;;
  match bip32_privateKey childKey with
  | None =>
      liftExc
        (throw (JsError "Unable to derive private key from `rootNode`, bip32 master keychain"))
  | Some childPrivateKey =>
      ecPair <- eff_ECPair_fromPrivateKey R (Some childPrivateKey) ;;
      privateKey <- eff_ecPairToHexString R ecPair ;;
      let txVersion :=
        match chain with
        | ChainID.Mainnet => TransactionVersion.Mainnet
        | ChainID.Testnet => TransactionVersion.Testnet
        end in
      address <- eff_getAddressFromPrivateKey R privateKey txVersion ;;
      ret {| childKey := childKey; address := address; privateKey := privateKey |}
  end.

Definition generateMnemonic_eff : Eff string :=
  entropy <- eff_randomBytes R ENTROPY_BYTES ;;
  mnemonic <- eff_entropyToMnemonic R entropy ;;
  ret mnemonic.

Definition walletFromSeedPhrase_eff (mnemonic : string) (index : Z) (network : NetworkType)
    : Eff BaseWallet :=
  seed <- eff_mnemonicToSeed R mnemonic ;;
  rootNode <- eff_fromSeed R (Buffer_from seed) ;;
  let deriveStxAddressKeychain :=
    deriveStxAddressChain_eff
      (match network with Mainnet => ChainID.Mainnet | Testnet => ChainID.Testnet end)
      (Some index) in
  keychain <- deriveStxAddressKeychain rootNode ;;
  let stxAddress := address keychain in
  master <- eff_fromSeed R seed ;;
  let masterPubKey := Buffer_toString_hex (bip32_publicKey master) in
  stacksPrivateKey <- eff_createStacksPrivateKey R (privateKey keychain) ;;
  stacksPublicKey <- eff_getPublicKey R stacksPrivateKey ;;
  stxPublicKey <- eff_publicKeyToString R stacksPublicKey ;;
  (* derive segwit btc address *)
  btcChild <- eff_derivePath R master (getBitcoinDerivationPath None index network) ;;
  keyPair <- eff_ECPair_fromPrivateKey R (bip32_privateKey btcChild) ;;
  (* derive taproot btc address *)
  taprootBtcChild <- eff_derivePath R master (getTaprootDerivationPath None index network) ;;
  taprootHex <- liftExc (toString_hex_of (bip32_privateKey taprootBtcChild)) ;;
  privKey <- liftExc (hex_decode taprootHex) ;;
  btcNetwork <- eff_getBtcNetwork R network ;;
  ordinalsAddress <- eff_btc_getAddress R "tr" privKey btcNetwork ;;
  redeem <- eff_payments_p2wpkh R (ECPair_publicKey keyPair)
              (match network with Mainnet => networks_bitcoin | Testnet => networks_testnet end) ;;
  segwitBtcAddress <- eff_payments_p2sh R redeem (ECPair_publicKey keyPair)
              (match network with Mainnet => networks_bitcoin | Testnet => networks_testnet end) ;;
  let btcAddress := payment_address segwitBtcAddress in
  let btcPublicKey := Buffer_toString_hex (ECPair_publicKey keyPair) in
  taprootInternalPubKey <- eff_schnorr_getPublicKey R privKey ;;
  ret {| stxAddress := stxAddress;
         btcAddress := btcAddress;
         ordinalsAddress := ordinalsAddress;
         masterPubKey := masterPubKey;
         stxPublicKey := stxPublicKey;
         btcPublicKey := btcPublicKey;
         ordinalsPublicKey := hex_encode taprootInternalPubKey;
         seedPhrase := mnemonic |}.

Definition newWallet_eff : Eff BaseWallet :=
  mnemonic <- generateMnemonic_eff ;;
  walletFromSeedPhrase_eff mnemonic 0 Mainnet.

(** The outcome of a computation does not depend on the world it starts in:
    run twice, in whatever two states of the world, it throws the same
    exception or returns the same value. *)
Definition same_outcome_in_every_world {A : Type} (c : Eff A) : Prop :=
  forall w1 w2 : World, fst (c w1) = fst (c w2).

(** The contract of the libraries that [walletFromSeedPhrase] calls: each
    call answers by its arguments alone, though it may change the world.
    [eff_randomBytes], which [walletFromSeedPhrase] does not call, is under no
    such contract. *)
Record DeterministicLibraries : Prop := {
  det_mnemonicToSeed : forall m, same_outcome_in_every_world (eff_mnemonicToSeed R m);
  det_fromSeed : forall seed, same_outcome_in_every_world (eff_fromSeed R seed);
  det_derivePath : forall node path, same_outcome_in_every_world (eff_derivePath R node path);
  det_ECPair_fromPrivateKey :
    forall key, same_outcome_in_every_world (eff_ECPair_fromPrivateKey R key);
  det_ecPairToHexString :
    forall pair, same_outcome_in_every_world (eff_ecPairToHexString R pair);
  det_createStacksPrivateKey :
    forall key, same_outcome_in_every_world (eff_createStacksPrivateKey R key);
  det_getPublicKey : forall key, same_outcome_in_every_world (eff_getPublicKey R key);
  det_publicKeyToString :
    forall key, same_outcome_in_every_world (eff_publicKeyToString R key);
  det_getAddressFromPrivateKey :
    forall key version,
      same_outcome_in_every_world (eff_getAddressFromPrivateKey R key version);
  det_getBtcNetwork : forall network, same_outcome_in_every_world (eff_getBtcNetwork R network);
  det_btc_getAddress :
    forall type key network,
      same_outcome_in_every_world (eff_btc_getAddress R type key network);
  det_payments_p2wpkh :
    forall pubkey network, same_outcome_in_every_world (eff_payments_p2wpkh R pubkey network);
  det_payments_p2sh :
    forall redeem pubkey network,
      same_outcome_in_every_world (eff_payments_p2sh R redeem pubkey network);
  det_schnorr_getPublicKey :
    forall key, same_outcome_in_every_world (eff_schnorr_getPublicKey R key)
}.

End Effectful.

(** The collaborators of [Collaborators] as calls on a world that is the
    entropy pool: every call but [crypto.randomBytes] leaves the pool alone. *)
Definition entropy_effects {L : Collaborators} : Effects Entropy := {|
  eff_randomBytes := fun size pool =>
    match crypto_randomBytes size pool with
    | inl e => (inl e, pool)
    | inr (bytes, pool') => (ok bytes, pool')
    end;
  eff_entropyToMnemonic := fun entropy => liftExc Entropy (bip39_entropyToMnemonic entropy);
  eff_mnemonicToSeed := fun mnemonic => liftExc Entropy (bip39_mnemonicToSeed mnemonic);
  eff_fromSeed := fun seed => liftExc Entropy (bip32_fromSeed seed);
  eff_derivePath := fun node path => liftExc Entropy (bip32_derivePath node path);
  eff_ECPair_fromPrivateKey := fun key => liftExc Entropy (ECPair_fromPrivateKey key);
  eff_ecPairToHexString := fun pair => liftExc Entropy (ecPairToHexString pair);
  eff_createStacksPrivateKey := fun key => liftExc Entropy (createStacksPrivateKey key);
  eff_getPublicKey := fun key => liftExc Entropy (getPublicKey key);
  eff_publicKeyToString := fun key => liftExc Entropy (publicKeyToString key);
  eff_getAddressFromPrivateKey := fun key version =>
    liftExc Entropy (getAddressFromPrivateKey key version);
  eff_getBtcNetwork := fun network => liftExc Entropy (getBtcNetwork network);
  eff_btc_getAddress := fun type key network =>
    liftExc Entropy (btc_getAddress type key network);
  eff_payments_p2wpkh := fun pubkey network => liftExc Entropy (payments_p2wpkh pubkey network);
  eff_payments_p2sh := fun redeem pubkey network =>
    liftExc Entropy (payments_p2sh redeem pubkey network);
  eff_schnorr_getPublicKey := fun key => liftExc Entropy (schnorr_getPublicKey key)
|}.

(** ** Test doubles *)

(** Small, executable stand-ins for the collaborators, in the manner of a
    unit test's stubs.  They compute, so the statements below can be run on
    concrete inputs; nothing proved about the module depends on them. *)
Module Stub.

(** The derivation-path prefixes of BIP44 (Stacks coin type), BIP49, BIP84 and
    BIP86, and sixteen bytes of entropy. *)
#[export] Instance constants : Constants := {|
  BTC_SEGWIT_PATH_PURPOSE := "m/84'/";
  BTC_TAPROOT_PATH_PURPOSE := "m/86'/";
  BTC_WRAPPED_SEGWIT_PATH_PURPOSE := "m/49'/";
  ENTROPY_BYTES := 16;
  STX_PATH_WITHOUT_INDEX := "m/44'/5757'/0'/0/"
|}.

Record Node : Type := {
  node_secret : option Buffer;
  node_public : Buffer
}.

Definition fromSeed (seed : Buffer) : Exc Node :=
  match seed with
  | [] => throw (JsTypeError "Seed should be at least 128 bits")
  | _ :: _ => ok {| node_secret := Some seed; node_public := rev seed |}
  end.

(** A child's keys are the parent's followed by the path.  Paths that
    [watch_only] selects yield a node without a private key. *)
Definition derivePath (watch_only : string -> bool) (node : Node) (path : string) : Exc Node :=
  ok {| node_secret :=
          if watch_only path then None
          else option_map (fun k => (k ++ list_byte_of_string path)%list) (node_secret node);
        node_public := (node_public node ++ list_byte_of_string path)%list |}.

Definition ecpair_fromPrivateKey (key : option Buffer) : Exc Buffer :=
  match key with
  | Some k => ok k
  | None => throw (JsTypeError "Expected Buffer(Length: 32), got undefined")
  end.

(** A decoder that knows seven addresses and answers for them what
    c32check answers: the hash [a46f...d39d] under the versions 22, 20, 26, 21
    and 0, and the empty payload under the versions 22 and 26.  Any other
    string is rejected the way c32check rejects a short string, a string that
    does not start with [S], or a bad checksum. *)
Definition known_addresses : list (string * (Z * string)) :=
  [ ("SP2J6ZY48GV1EZ5V2V5RB9MP66SW86PYKKNRV9EJ7", (22%Z, "a46ff88886c2ef9762d970b4d2c63678835bd39d"));
    ("SM2J6ZY48GV1EZ5V2V5RB9MP66SW86PYKKQVX8X0G", (20%Z, "a46ff88886c2ef9762d970b4d2c63678835bd39d"));
    ("ST2J6ZY48GV1EZ5V2V5RB9MP66SW86PYKKQYAC0RQ", (26%Z, "a46ff88886c2ef9762d970b4d2c63678835bd39d"));
    ("SN2J6ZY48GV1EZ5V2V5RB9MP66SW86PYKKP6D2ZK9", (21%Z, "a46ff88886c2ef9762d970b4d2c63678835bd39d"));
    ("S02J6ZY48GV1EZ5V2V5RB9MP66SW86PYKKPVKG2CE", (0%Z, "a46ff88886c2ef9762d970b4d2c63678835bd39d"));
    ("SP37JJX3D", (22%Z, EmptyString));
    ("STEY92JD", (26%Z, EmptyString)) ].

Fixpoint lookup_address (s : string) (table : list (string * (Z * string)))
    : option (Z * string) :=
  match table with
  | [] => None
  | (known, decoded) :: rest =>
      if String.eqb s known then Some decoded else lookup_address s rest
  end.

Definition addressDecode (s : string) : Exc (Z * string) :=
  if (String.length s <=? 5)%nat then throw (JsError "Invalid c32 address: invalid length")
  else if negb (prefix "S" s) then throw (JsError "Invalid c32 address: must start with S")
  else match lookup_address s known_addresses with
       | Some decoded => ok decoded
       | None => throw (JsError "Invalid c32check string: checksum mismatch")
       end.

Definition validateAddress (addr : string) (network : btcAddressNetwork.t) : Exc bool :=
  match addr with
  | EmptyString => throw (JsTypeError "Invalid address")
  | String _ _ =>
      match network with
      | btcAddressNetwork.mainnet => ok (prefix "bc1" addr || prefix "3" addr)
      | btcAddressNetwork.testnet => ok (prefix "tb1" addr || prefix "2" addr)
      | btcAddressNetwork.regtest => ok (prefix "bcrt1" addr)
      end
  end.

Definition collaborators (watch_only : string -> bool) : Collaborators := {|
  bip39_mnemonicToSeed := fun mnemonic => ok (list_byte_of_string mnemonic);
  bip39_entropyToMnemonic := fun entropy => ok (Buffer_toString_hex entropy);
  BIP32Interface := Node;
  bip32_fromSeed := fromSeed;
  bip32_derivePath := derivePath watch_only;
  bip32_privateKey := node_secret;
  bip32_publicKey := node_public;
  ECPairInterface := Buffer;
  ECPair_fromPrivateKey := ecpair_fromPrivateKey;
  ECPair_publicKey := fun pair => rev pair;
  ecPairToHexString := fun pair => ok (Buffer_toString_hex pair ++ "01");
  StacksPrivateKey := string;
  StacksPublicKey := string;
  createStacksPrivateKey := fun key => ok key;
  getPublicKey := fun key => ok ("02" ++ key);
  publicKeyToString := fun key => ok key;
  getAddressFromPrivateKey := fun key version =>
    match version with
    | TransactionVersion.Mainnet => ok ("SP" ++ key)
    | TransactionVersion.Testnet => ok ("ST" ++ key)
    end;
  BtcSignerNetwork := NetworkType;
  getBtcNetwork := fun network => ok network;
  btc_getAddress := fun type key network =>
    match network with
    | Mainnet => ok (Some ("bc1p" ++ hex_encode key))
    | Testnet => ok (Some ("tb1p" ++ hex_encode key))
    end;
  BitcoinJsNetwork := NetworkType;
  Payment := option string;
  networks_bitcoin := Mainnet;
  networks_testnet := Testnet;
  payments_p2wpkh := fun pubkey network => ok (Some ("0014" ++ Buffer_toString_hex pubkey));
  payments_p2sh := fun redeem pubkey network =>
    match network with
    | Mainnet => ok (option_map (append "3") redeem)
    | Testnet => ok (option_map (append "2") redeem)
    end;
  payment_address := fun payment => payment;
  schnorr_getPublicKey := fun key => ok (rev key);
  c32addressDecode := addressDecode;
  validate := validateAddress
|}.

(** Every derived node keeps its private key. *)
Definition full : Collaborators := collaborators (fun _ => false).

(** No derived node has a private key. *)
Definition neutered : Collaborators := collaborators (fun _ => true).

(** Only the nodes under the given purpose prefix lose their private key. *)
Definition neutered_under (purpose : string) : Collaborators :=
  collaborators (prefix purpose).

(** Callbacks: the hash is the password followed by a fixed salt; the cipher
    prepends the key to the seed, and deciphering checks and removes it. *)
Definition hashGenerator (password : string) : Promise PasswordHash :=
  ok {| salt := "NaCl"; hash := password ++ "NaCl" |}.

Definition encryptionHandler (seed key : string) : Promise Buffer :=
  ok (list_byte_of_string (key ++ seed)).

Definition decryptionHandler (data : Buffer + string) (key : string) : Promise string :=
  bytes <- match data with
           | inl buffer => ok buffer
           | inr text => hex_decode text
           end ;;
  let plain := string_of_list_byte bytes in
  if prefix key plain
  then ok (substring (String.length key) (String.length plain - String.length key) plain)
  else throw (JsError "decryption failed").

(** Collaborators with state: the world is the number of calls made so far.
    Every call counts itself; the answers of the libraries are those of
    [collaborators] and do not look at the count, while the random bytes are
    drawn from it. *)
Definition counted {A : Type} (c : Exc A) : Eff nat A := fun calls => (c, S calls).

Definition drawn_byte (calls : nat) : byte :=
  match Byte.of_nat (calls mod 256) with
  | Some b => b
  | None => Byte.x00
  end.

Definition counting_effects (watch_only : string -> bool)
    : Effects nat (L := collaborators watch_only) := {|
  eff_randomBytes := fun size calls =>
    (ok (repeat (drawn_byte calls) (N.to_nat size)), S calls);
  eff_entropyToMnemonic := fun entropy =>
    counted (bip39_entropyToMnemonic (Collaborators := collaborators watch_only) entropy);
  eff_mnemonicToSeed := fun mnemonic =>
    counted (bip39_mnemonicToSeed (Collaborators := collaborators watch_only) mnemonic);
  eff_fromSeed := fun seed =>
    counted (bip32_fromSeed (Collaborators := collaborators watch_only) seed);
  eff_derivePath := fun node path =>
    counted (bip32_derivePath (Collaborators := collaborators watch_only) node path);
  eff_ECPair_fromPrivateKey := fun key =>
    counted (ECPair_fromPrivateKey (Collaborators := collaborators watch_only) key);
  eff_ecPairToHexString := fun pair =>
    counted (ecPairToHexString (Collaborators := collaborators watch_only) pair);
  eff_createStacksPrivateKey := fun key =>
    counted (createStacksPrivateKey (Collaborators := collaborators watch_only) key);
  eff_getPublicKey := fun key =>
    counted (getPublicKey (Collaborators := collaborators watch_only) key);
  eff_publicKeyToString := fun key =>
    counted (publicKeyToString (Collaborators := collaborators watch_only) key);
  eff_getAddressFromPrivateKey := fun key version =>
    counted (getAddressFromPrivateKey (Collaborators := collaborators watch_only) key version);
  eff_getBtcNetwork := fun network =>
    counted (getBtcNetwork (Collaborators := collaborators watch_only) network);
  eff_btc_getAddress := fun type key network =>
    counted (btc_getAddress (Collaborators := collaborators watch_only) type key network);
  eff_payments_p2wpkh := fun pubkey network =>
    counted (payments_p2wpkh (Collaborators := collaborators watch_only) pubkey network);
  eff_payments_p2sh := fun redeem pubkey network =>
    counted (payments_p2sh (Collaborators := collaborators watch_only) redeem pubkey network);
  eff_schnorr_getPublicKey := fun key =>
    counted (schnorr_getPublicKey (Collaborators := collaborators watch_only) key)
|}.

End Stub.

(** ** Vocabulary for path and text properties *)

(** Every character of a string satisfies a test. *)
Fixpoint string_forallb (p : ascii -> bool) (s : string) : bool :=
  match s with
  | EmptyString => true
  | String c rest => p c && string_forallb p rest
  end.

(** A decimal digit or the minus sign. *)
Definition decimal_char (c : ascii) : bool :=
  let n := N_of_ascii c in
  ((48 <=? n) && (n <=? 57))%N || (n =? 45)%N.

(** A lower-case hexadecimal digit. *)
Definition lower_hex_char (c : ascii) : bool :=
  let n := N_of_ascii c in
  ((48 <=? n) && (n <=? 57))%N || ((97 <=? n) && (n <=? 102))%N.

(** The account a path builder formats: an omitted account counts as 0. *)
Definition account_or_zero (account : option Z) : Z :=
  match account with
  | Some a => a
  | None => 0%Z
  end.

(** The coin-type digit a path builder writes for a network. *)
Definition coin_type_of (network : NetworkType) : string :=
  match network with
  | Mainnet => "0"
  | Testnet => "1"
  end.

(** ** Auxiliary facts *)

Lemma string_append_assoc (a b c : string) : (a ++ b) ++ c = a ++ (b ++ c).
Proof. induction a as [|x a IH]; simpl; [reflexivity | now rewrite IH]. Qed.

Lemma string_length_append (a b : string) :
  String.length (a ++ b) = String.length a + String.length b.
Proof. induction a as [|x a IH]; simpl; [reflexivity | now rewrite IH]. Qed.

(** Reading a character of [p ++ s] at or after the end of [p] reads [s]. *)
Lemma string_get_append_right (p s : string) (k : nat) :
  String.length p <= k -> get k (p ++ s) = get (k - String.length p) s.
Proof.
  intros Hk.
  replace k with ((k - String.length p) + String.length p) at 1 by lia.
  symmetry. apply append_correct2.
Qed.

(** Reading a character of [p ++ s] before the end of [p] reads [p]. *)
Lemma string_get_append_left (p s : string) (k : nat) :
  k < String.length p -> get k (p ++ s) = get k p.
Proof. intros Hk. symmetry. now apply append_correct1. Qed.

Lemma hex_decode_pairs_byte (x : byte) (s : string) :
  hex_decode_pairs (byte_to_hex x ++ s) = option_map (cons x) (hex_decode_pairs s).
Proof. destruct x; simpl; destruct (hex_decode_pairs s); reflexivity. Qed.

(** Decoding the hexadecimal text of a buffer gives the buffer back. *)
Lemma hex_decode_toString_hex (b : Buffer) : hex_decode (Buffer_toString_hex b) = ok b.
Proof.
  unfold hex_decode.
  assert (H : hex_decode_pairs (Buffer_toString_hex b) = Some b).
  { induction b as [|x b IH]; [reflexivity|].
    cbn [Buffer_toString_hex]. rewrite hex_decode_pairs_byte, IH. reflexivity. }
  now rewrite H.
Qed.

(** A computation in [Exc] either threw or returned. *)
Lemma Exc_cases {A : Type} (c : Exc A) : (exists e, c = throw e) \/ (exists a, c = ok a).
Proof. destruct c as [e|a]; [left | right]; eauto. Qed.

(** [try_catch] with a handler that returns never throws. *)
Lemma try_catch_returns {A : Type} (body : Exc A) (fallback : A) :
  try_catch body (fun _ => ret fallback)
  = ok (match body with inl _ => fallback | inr a => a end).
Proof. destruct body; reflexivity. Qed.

(** Case analysis on the call that a sequence of calls in hypothesis [H] is
    blocked on; the branch that contradicts [H] is closed. *)
Ltac run_in H :=
  match type of H with
  | match ?c with inl _ => _ | inr _ => _ end = _ =>
      let E := fresh "E" in
      destruct c eqn:E; simpl in H; try discriminate H
  | match ?c with Some _ => _ | None => _ end = _ =>
      let E := fresh "E" in
      destruct c eqn:E; simpl in H; try discriminate H
  end.

(** *** Strings and decimal text *)

Lemma string_append_cancel_l (p a b : string) : p ++ a = p ++ b -> a = b.
Proof.
  induction p as [|c p IH]; simpl; intros H; [exact H|].
  injection H as H. now apply IH.
Qed.

(** Two texts free of a separator character, each followed by the separator,
    split a string in one way only. *)
Lemma string_split_unique (sep : ascii) (a b x y : string) :
  string_forallb (fun c => negb (Ascii.eqb c sep)) a = true ->
  string_forallb (fun c => negb (Ascii.eqb c sep)) b = true ->
  a ++ String sep x = b ++ String sep y ->
  a = b /\ x = y.
Proof.
  revert b. induction a as [|c a IH]; intros [|d b] Ha Hb H; simpl in *.
  - injection H as ->. split; reflexivity.
  - injection H as <- _. rewrite Ascii.eqb_refl in Hb. discriminate Hb.
  - injection H as -> _. rewrite Ascii.eqb_refl in Ha. discriminate Ha.
  - injection H as -> H.
    apply andb_prop in Ha. apply andb_prop in Hb.
    destruct (IH b (proj2 Ha) (proj2 Hb) H) as [-> ->]. split; reflexivity.
Qed.

Lemma string_forallb_impl (p q : ascii -> bool) (s : string) :
  (forall c, p c = true -> q c = true) ->
  string_forallb p s = true -> string_forallb q s = true.
Proof.
  intros Hpq. induction s as [|c s IH]; simpl; [reflexivity|].
  intros H. apply andb_prop in H. destruct H as [Hc Hs].
  now rewrite (Hpq c Hc), (IH Hs).
Qed.

Lemma string_forallb_append (p : ascii -> bool) (a b : string) :
  string_forallb p (a ++ b) = string_forallb p a && string_forallb p b.
Proof.
  induction a as [|c a IH]; simpl; [reflexivity|].
  now rewrite IH, andb_assoc.
Qed.

(** The decimal form [Z.to_int] produces is in normal form, never the empty
    digit sequence. *)
Lemma Z_to_int_norm (z : Z) : Z.to_int z = Decimal.norm (Z.to_int z).
Proof.
  rewrite <- (DecimalZ.to_of (Z.to_int z)), DecimalZ.of_to. reflexivity.
Qed.

Lemma Z_to_int_nonnil (z : Z) :
  Z.to_int z <> Decimal.Pos Decimal.Nil /\ Z.to_int z <> Decimal.Neg Decimal.Nil.
Proof.
  rewrite Z_to_int_norm.
  destruct (Z.to_int z) as [d|d]; simpl.
  - split; [|discriminate].
    intros H. injection H as H. now apply DecimalFacts.unorm_nonnil in H.
  - destruct (Decimal.nzhead d); split; discriminate.
Qed.

(** [bigint.toString()] tells integers apart. *)
Lemma bigint_toString_inj (a b : Z) : bigint_toString a = bigint_toString b -> a = b.
Proof.
  unfold bigint_toString. intros H.
  apply DecimalZ.to_int_inj.
  assert (Ha := NilZero.isi (Z.to_int a) (proj1 (Z_to_int_nonnil a)) (proj2 (Z_to_int_nonnil a))).
  assert (Hb := NilZero.isi (Z.to_int b) (proj1 (Z_to_int_nonnil b)) (proj2 (Z_to_int_nonnil b))).
  rewrite H in Ha. rewrite Ha in Hb. now injection Hb.
Qed.

Lemma string_of_uint_decimal (d : Decimal.uint) :
  string_forallb decimal_char (NilEmpty.string_of_uint d) = true.
Proof. induction d; simpl; try assumption; reflexivity. Qed.

(** [bigint.toString()] writes digits and at most a sign. *)
Lemma bigint_toString_decimal (z : Z) :
  string_forallb decimal_char (bigint_toString z) = true.
Proof.
  unfold bigint_toString.
  destruct (Z.to_int z) as [d|d]; simpl; destruct d;
    try reflexivity; apply (string_of_uint_decimal (_ _)).
Qed.

Lemma decimal_char_not_apostrophe (c : ascii) :
  decimal_char c = true -> negb (Ascii.eqb c "'") = true.
Proof.
  destruct (Ascii.eqb_spec c "'") as [->|]; [discriminate | reflexivity].
Qed.

Lemma byte_to_hex_lower (x : byte) : string_forallb lower_hex_char (byte_to_hex x) = true.
Proof. destruct x; reflexivity. Qed.

(** The hexadecimal text of a buffer has two lower-case digits per byte. *)
Lemma Buffer_toString_hex_length (b : Buffer) :
  String.length (Buffer_toString_hex b) = 2 * List.length b.
Proof.
  induction b as [|x b IH]; [reflexivity|].
  cbn [Buffer_toString_hex List.length]. rewrite string_length_append, IH.
  simpl. lia.
Qed.

Lemma Buffer_toString_hex_lower (b : Buffer) :
  string_forallb lower_hex_char (Buffer_toString_hex b) = true.
Proof.
  induction b as [|x b IH]; [reflexivity|].
  cbn [Buffer_toString_hex]. now rewrite string_forallb_append, byte_to_hex_lower, IH.
Qed.

(** ** Properties of the wallet module *)

Section WalletProperties.

Context {K : Constants} {L : Collaborators}.

(** *** Path builders *)

Lemma getBitcoinDerivationPath_shape (account : option Z) (index : Z) (network : NetworkType) :
  getBitcoinDerivationPath account index network
  = BTC_WRAPPED_SEGWIT_PATH_PURPOSE
    ++ (match network with Mainnet => "0" | Testnet => "1" end)
    ++ ("'/" ++ accountIndex_of account ++ "'/0/" ++ bigint_toString index).
Proof. destruct network; reflexivity. Qed.

(** C4. [getBitcoinDerivationPath] with the account omitted, index 0 and
    Mainnet is the wrapped-segwit purpose prefix followed by [0'/0'/0/0], so it
    ends in ['/0'/0/0]; and for every account and index the Mainnet and the
    Testnet paths are the same string except for one character, the one right
    after the purpose prefix, which is [0] on Mainnet and [1] on Testnet. *)
Theorem getBitcoinDerivationPath_format :
  getBitcoinDerivationPath None 0 Mainnet = BTC_WRAPPED_SEGWIT_PATH_PURPOSE ++ "0'/0'/0/0"
  /\ (exists front, getBitcoinDerivationPath None 0 Mainnet = front ++ "'/0'/0/0")
  /\ forall (account : option Z) (index : Z),
       let mainnet := getBitcoinDerivationPath account index Mainnet in
       let testnet := getBitcoinDerivationPath account index Testnet in
       let coin := String.length BTC_WRAPPED_SEGWIT_PATH_PURPOSE in
       (exists rest,
           mainnet = BTC_WRAPPED_SEGWIT_PATH_PURPOSE ++ "0" ++ rest
           /\ testnet = BTC_WRAPPED_SEGWIT_PATH_PURPOSE ++ "1" ++ rest
           /\ rest = "'/" ++ accountIndex_of account ++ "'/0/" ++ bigint_toString index)
       /\ String.length mainnet = String.length testnet
       /\ get coin mainnet = Some "0"%char
       /\ get coin testnet = Some "1"%char
       /\ forall k, k <> coin -> get k mainnet = get k testnet.
Proof.
  split; [reflexivity|].
  split.
  { exists (BTC_WRAPPED_SEGWIT_PATH_PURPOSE ++ "0").
    rewrite string_append_assoc. reflexivity. }
  intros account index mainnet testnet coin.
  subst mainnet testnet coin.
  rewrite !getBitcoinDerivationPath_shape.
  set (P := BTC_WRAPPED_SEGWIT_PATH_PURPOSE).
  set (rest := "'/" ++ accountIndex_of account ++ "'/0/" ++ bigint_toString index).
  split; [exists rest; repeat split; reflexivity|].
  split; [rewrite !string_length_append; reflexivity|].
  split; [rewrite string_get_append_right, Nat.sub_diag by lia; reflexivity|].
  split; [rewrite string_get_append_right, Nat.sub_diag by lia; reflexivity|].
  intros k Hk.
  destruct (Nat.lt_ge_cases k (String.length P)) as [Hlt|Hge].
  - rewrite !string_get_append_left by assumption. reflexivity.
  - rewrite (string_get_append_right P ("0" ++ rest)),
      (string_get_append_right P ("1" ++ rest)) by assumption.
    destruct (k - String.length P) as [|j] eqn:Ej; [lia|].
    reflexivity.
Qed.

(** *** Stacks derivation *)

(** Both chain IDs select the same template. *)
Lemma getDerivationPath_chain (c1 c2 : ChainID.t) (index : Z) :
  getDerivationPath c1 index = getDerivationPath c2 index.
Proof. destruct c1, c2; reflexivity. Qed.

(** What a returned key chain says about the calls that built it. *)
Lemma deriveStxAddressChain_ok_inv chain index rootNode (keychain : Keychain) :
  deriveStxAddressChain chain index rootNode = ok keychain ->
  exists childPrivateKey ecPair,
    bip32_derivePath rootNode (getDerivationPath chain (index_or_default index))
      = ok (childKey keychain)
    /\ bip32_privateKey (childKey keychain) = Some childPrivateKey
    /\ ECPair_fromPrivateKey (Some childPrivateKey) = ok ecPair
    /\ ecPairToHexString ecPair = ok (privateKey keychain)
    /\ getAddressFromPrivateKey (privateKey keychain) (txVersion_of chain)
       = ok (address keychain).
Proof.
  unfold deriveStxAddressChain, index_or_default, txVersion_of. intros H.
  simpl in H.
  run_in H. run_in H. run_in H. run_in H. run_in H.
  injection H as <-. simpl. eauto 10.
Qed.

(** A missing private key on the derived child is reported by the module's
    own error. *)
Lemma deriveStxAddressChain_no_private_key chain index rootNode child :
  bip32_derivePath rootNode (getDerivationPath chain (index_or_default index)) = ok child ->
  bip32_privateKey child = None ->
  deriveStxAddressChain chain index rootNode
  = throw (JsError "Unable to derive private key from `rootNode`, bip32 master keychain").
Proof.
  unfold deriveStxAddressChain, index_or_default. intros Hchild Hkey.
  simpl. rewrite Hchild. simpl. rewrite Hkey. reflexivity.
Qed.

(** Once one chain's derivation has returned, the other chain's derivation is
    the address computation on the same child and private key. *)
Lemma deriveStxAddressChain_other_chain c1 c2 index rootNode (k1 : Keychain) :
  deriveStxAddressChain c1 index rootNode = ok k1 ->
  deriveStxAddressChain c2 index rootNode
  = (address <- getAddressFromPrivateKey (privateKey k1) (txVersion_of c2) ;;
     ret {| childKey := childKey k1; address := address; privateKey := privateKey k1 |}).
Proof.
  intros H.
  destruct (deriveStxAddressChain_ok_inv _ _ _ _ H)
    as (childPrivateKey & ecPair & Hchild & Hkey & Hpair & Hhex & _).
  unfold deriveStxAddressChain. fold (index_or_default index). fold (txVersion_of c2).
  simpl.
  rewrite (getDerivationPath_chain c2 c1), Hchild. simpl.
  rewrite Hkey, Hpair. simpl. rewrite Hhex. reflexivity.
Qed.

(** C2. The path [deriveStxAddressChain] derives along is the chain's entry
    of [derivationPaths] followed by the decimal index: a returned key chain's
    child is the node at that path, an error of the derivation at that path is
    the error of [deriveStxAddressChain], and an omitted index is 0.  The
    entry is a fixed template per chain ID (the same constant for both), with
    no account segment added between template and index. *)
Theorem deriveStxAddressChain_path (chain : ChainID.t) (index : Z) (rootNode : BIP32Interface) :
  getDerivationPath chain index = derivationPaths chain ++ bigint_toString index
  /\ derivationPaths ChainID.Mainnet = STX_PATH_WITHOUT_INDEX
  /\ derivationPaths ChainID.Testnet = STX_PATH_WITHOUT_INDEX
  /\ (forall keychain,
        deriveStxAddressChain chain (Some index) rootNode = ok keychain ->
        bip32_derivePath rootNode (derivationPaths chain ++ bigint_toString index)
        = ok (childKey keychain))
  /\ (forall e,
        bip32_derivePath rootNode (derivationPaths chain ++ bigint_toString index) = throw e ->
        deriveStxAddressChain chain (Some index) rootNode = throw e)
  /\ deriveStxAddressChain chain None rootNode
     = deriveStxAddressChain chain (Some 0%Z) rootNode.
Proof.
  repeat split.
  - intros keychain H.
    destruct (deriveStxAddressChain_ok_inv _ _ _ _ H) as (? & ? & Hchild & _).
    exact Hchild.
  - intros e H. unfold deriveStxAddressChain, getDerivationPath. simpl.
    rewrite H. reflexivity.
Qed.

(** C9. Two runs of [getStxAddressKeyChain] on the same mnemonic and account
    index, one per chain ID, return the same child key and the same private
    key; the addresses are those of that private key under the Mainnet
    transaction version for [ChainID.Mainnet] and under the Testnet one for
    [ChainID.Testnet].  Moreover, once one run has returned, the other run is
    exactly the address computation on the same child and key, so it returns
    whenever that computation does. *)
Theorem getStxAddressKeyChain_chain_independent
    (mnemonic : string) (accountIndex : JsNumber) (k1 k2 : Keychain) :
  getStxAddressKeyChain mnemonic ChainID.Mainnet accountIndex = ok k1 ->
  getStxAddressKeyChain mnemonic ChainID.Testnet accountIndex = ok k2 ->
  childKey k1 = childKey k2
  /\ privateKey k1 = privateKey k2
  /\ getAddressFromPrivateKey (privateKey k1) TransactionVersion.Mainnet = ok (address k1)
  /\ getAddressFromPrivateKey (privateKey k2) TransactionVersion.Testnet = ok (address k2)
  /\ getStxAddressKeyChain mnemonic ChainID.Testnet accountIndex
     = (address <- getAddressFromPrivateKey (privateKey k1) TransactionVersion.Testnet ;;
        ret {| childKey := childKey k1; address := address; privateKey := privateKey k1 |})
  /\ getStxAddressKeyChain mnemonic ChainID.Mainnet accountIndex
     = (address <- getAddressFromPrivateKey (privateKey k2) TransactionVersion.Mainnet ;;
        ret {| childKey := childKey k2; address := address; privateKey := privateKey k2 |}).
Proof.
  intros R1 R2.
  assert (Hrun : forall chain,
            getStxAddressKeyChain mnemonic chain accountIndex
            = (seed <- bip39_mnemonicToSeed mnemonic ;;
               rootNode <- bip32_fromSeed (Buffer_from seed) ;;
               index <- BigInt accountIndex ;;
               deriveStxAddressChain chain (Some index) rootNode)) by reflexivity.
  rewrite !Hrun. rewrite Hrun in R1, R2. clear Hrun.
  destruct (bip39_mnemonicToSeed mnemonic) as [?|seed]; [discriminate R1|].
  simpl in R1, R2 |- *.
  destruct (bip32_fromSeed (Buffer_from seed)) as [?|rootNode]; [discriminate R1|].
  destruct (BigInt accountIndex) as [?|index]; [discriminate R1|].
  pose proof (deriveStxAddressChain_other_chain _ ChainID.Testnet _ _ _ R1) as H12.
  pose proof (deriveStxAddressChain_other_chain _ ChainID.Mainnet _ _ _ R2) as H21.
  destruct (deriveStxAddressChain_ok_inv _ _ _ _ R1) as (? & ? & _ & _ & _ & _ & Ha1).
  destruct (deriveStxAddressChain_ok_inv _ _ _ _ R2) as (? & ? & _ & _ & _ & _ & Ha2).
  assert (Hsame : childKey k1 = childKey k2 /\ privateKey k1 = privateKey k2).
  { rewrite H12 in R2. simpl in R2. run_in R2. injection R2 as <-. split; reflexivity. }
  destruct Hsame as [Hc Hp].
  repeat split; assumption.
Qed.

(** *** Wallet assembly *)

#[local] Arguments deriveStxAddressChain : simpl never.
#[local] Arguments getBitcoinDerivationPath : simpl never.
#[local] Arguments getTaprootDerivationPath : simpl never.
#[local] Arguments hex_decode : simpl never.
#[local] Arguments Buffer_toString_hex : simpl never.

Lemma walletFromSeedPhrase_ok_inv mnemonic index network wallet :
  walletFromSeedPhrase mnemonic index network = ok wallet ->
  WalletRun mnemonic index network wallet.
Proof.
  unfold walletFromSeedPhrase. intros H. simpl in H.
  fold (chainID_of network) (bitcoinJsNetwork_of network) in H.
  run_in H. unfold Buffer_from in H.
  destruct (bip32_fromSeed b) as [?|master] eqn:Emaster; [discriminate H|].
  simpl in H.
  run_in H. run_in H. run_in H. run_in H. run_in H. run_in H. run_in H.
  unfold toString_hex_of in H.
  destruct (bip32_privateKey b1) as [taprootKey|] eqn:Ekey; [|discriminate H].
  simpl in H. rewrite hex_decode_toString_hex in H. simpl in H.
  run_in H. run_in H. run_in H. run_in H. run_in H.
  injection H as <-.
  econstructor; try eassumption; simpl.
  - rewrite E1. simpl. rewrite E2. simpl. exact E3.
  - rewrite E7. simpl. exact E8.
  - rewrite E9. simpl. exact E10.
Qed.

(** A returned wallet carries the mnemonic it was derived from, so deriving
    again from the record's own seed phrase gives the record back. *)
Lemma walletFromSeedPhrase_rederive mnemonic index network wallet :
  walletFromSeedPhrase mnemonic index network = ok wallet ->
  seedPhrase wallet = mnemonic
  /\ walletFromSeedPhrase (seedPhrase wallet) index network = ok wallet.
Proof.
  intros H.
  assert (Hseed : seedPhrase wallet = mnemonic).
  { destruct (walletFromSeedPhrase_ok_inv _ _ _ _ H). reflexivity. }
  split; [exact Hseed | now rewrite Hseed].
Qed.

(** [newWallet] is [walletFromSeedPhrase] at index 0 on Mainnet, on the
    mnemonic drawn from the entropy pool; the pool is what the wallet depends
    on beyond the three arguments of [walletFromSeedPhrase]. *)
Lemma newWallet_run pool wallet pool' :
  newWallet pool = ok (wallet, pool') ->
  exists mnemonic,
    generateMnemonic pool = ok (mnemonic, pool')
    /\ walletFromSeedPhrase mnemonic 0 Mainnet = ok wallet.
Proof.
  unfold newWallet. intros H. simpl in H.
  destruct (generateMnemonic pool) as [?|[mnemonic rest]]; [discriminate H|].
  simpl in H.
  destruct (walletFromSeedPhrase mnemonic 0 Mainnet) as [?|w] eqn:Hwallet;
    [discriminate H|].
  injection H as <- <-. exists mnemonic. split; [reflexivity | exact Hwallet].
Qed.

(** The two lookup helpers, once seed and master node are known. *)
Lemma getBtcPrivateKey_run seedPhrase index network seed master btcChild :
  bip39_mnemonicToSeed seedPhrase = ok seed ->
  bip32_fromSeed seed = ok master ->
  bip32_derivePath master (getBitcoinDerivationPath None index network) = ok btcChild ->
  getBtcPrivateKey seedPhrase index network = toString_hex_of (bip32_privateKey btcChild).
Proof.
  intros Hseed Hmaster Hchild. unfold getBtcPrivateKey. simpl.
  rewrite Hseed. simpl. rewrite Hmaster. simpl. rewrite Hchild. reflexivity.
Qed.

Lemma getBtcTaprootPrivateKey_run seedPhrase index network seed master btcChild :
  bip39_mnemonicToSeed seedPhrase = ok seed ->
  bip32_fromSeed seed = ok master ->
  bip32_derivePath master (getTaprootDerivationPath None index network) = ok btcChild ->
  getBtcTaprootPrivateKey seedPhrase index network
  = toString_hex_of (bip32_privateKey btcChild).
Proof.
  intros Hseed Hmaster Hchild. unfold getBtcTaprootPrivateKey. simpl.
  rewrite Hseed. simpl. rewrite Hmaster. simpl. rewrite Hchild. reflexivity.
Qed.

(** C3. Given that [ECPair.fromPrivateKey] rejects an undefined key: whenever
    [walletFromSeedPhrase] returns a wallet, the wrapped-segwit child node it
    derived has a private key, the key pair built from it gives
    the wallet's [btcPublicKey], and [getBtcPrivateKey] on the same inputs
    returns that private key in hexadecimal; likewise the taproot child node
    has a private key, its schnorr public key is the wallet's
    [ordinalsPublicKey], and [getBtcTaprootPrivateKey] returns that private key
    in hexadecimal. *)
Theorem private_key_helpers_match_wallet
    (mnemonic : string) (index : Z) (network : NetworkType) (wallet : BaseWallet) :
  ECPair_rejects_undefined ->
  walletFromSeedPhrase mnemonic index network = ok wallet ->
  exists seed master btcChild btcPrivateKey keyPair
         taprootBtcChild taprootPrivateKey taprootInternalPubKey,
    bip39_mnemonicToSeed mnemonic = ok seed
    /\ bip32_fromSeed seed = ok master
    /\ bip32_derivePath master (getBitcoinDerivationPath None index network) = ok btcChild
    /\ bip32_privateKey btcChild = Some btcPrivateKey
    /\ ECPair_fromPrivateKey (Some btcPrivateKey) = ok keyPair
    /\ btcPublicKey wallet = Buffer_toString_hex (ECPair_publicKey keyPair)
    /\ getBtcPrivateKey mnemonic index network = ok (Buffer_toString_hex btcPrivateKey)
    /\ bip32_derivePath master (getTaprootDerivationPath None index network)
       = ok taprootBtcChild
    /\ bip32_privateKey taprootBtcChild = Some taprootPrivateKey
    /\ schnorr_getPublicKey taprootPrivateKey = ok taprootInternalPubKey
    /\ ordinalsPublicKey wallet = hex_encode taprootInternalPubKey
    /\ getBtcTaprootPrivateKey mnemonic index network
       = ok (Buffer_toString_hex taprootPrivateKey).
Proof.
  intros Hecpair H.
  destruct (walletFromSeedPhrase_ok_inv _ _ _ _ H)
    as [seed master keychain stacksPublicKey btcChild keyPair taprootBtcChild
        taprootPrivateKey ordinals segwitBtcAddress taprootInternalPubKey
        Hseed Hmaster _ _ Hbtc Hpair Htaproot Hkey _ _ Hschnorr].
  destruct (bip32_privateKey btcChild) as [btcPrivateKey|] eqn:Hbtckey;
    [|now apply Hecpair in Hpair].
  exists seed, master, btcChild, btcPrivateKey, keyPair,
         taprootBtcChild, taprootPrivateKey, taprootInternalPubKey.
  repeat split; try assumption.
  - rewrite (getBtcPrivateKey_run _ _ _ _ _ _ Hseed Hmaster Hbtc), Hbtckey. reflexivity.
  - rewrite (getBtcTaprootPrivateKey_run _ _ _ _ _ _ Hseed Hmaster Htaproot), Hkey.
    reflexivity.
Qed.

(** C7. Given that [ECPair.fromPrivateKey] rejects an undefined key (only the
    wrapped-segwit branch depends on it): when the derived child node has no
    private key, every derivation fails and hands the error to its caller: [deriveStxAddressChain] throws the
    module's own error; [walletFromSeedPhrase] returns no wallet, whether it is
    the wrapped-segwit child or the taproot child that lacks the key; and
    [getBtcPrivateKey] and [getBtcTaprootPrivateKey] reject with the engine's
    type error instead of returning a key string. *)
Theorem derivations_fail_without_private_key :
  ECPair_rejects_undefined ->
  (forall chain index rootNode child,
      bip32_derivePath rootNode (getDerivationPath chain (index_or_default index)) = ok child ->
      bip32_privateKey child = None ->
      deriveStxAddressChain chain index rootNode
      = throw (JsError "Unable to derive private key from `rootNode`, bip32 master keychain"))
  /\ (forall mnemonic index network seed master btcChild,
        bip39_mnemonicToSeed mnemonic = ok seed ->
        bip32_fromSeed seed = ok master ->
        bip32_derivePath master (getBitcoinDerivationPath None index network) = ok btcChild ->
        bip32_privateKey btcChild = None ->
        exists e, walletFromSeedPhrase mnemonic index network = throw e)
  /\ (forall mnemonic index network seed master taprootBtcChild,
        bip39_mnemonicToSeed mnemonic = ok seed ->
        bip32_fromSeed seed = ok master ->
        bip32_derivePath master (getTaprootDerivationPath None index network)
          = ok taprootBtcChild ->
        bip32_privateKey taprootBtcChild = None ->
        exists e, walletFromSeedPhrase mnemonic index network = throw e)
  /\ (forall seedPhrase index network seed master btcChild,
        bip39_mnemonicToSeed seedPhrase = ok seed ->
        bip32_fromSeed seed = ok master ->
        bip32_derivePath master (getBitcoinDerivationPath None index network) = ok btcChild ->
        bip32_privateKey btcChild = None ->
        getBtcPrivateKey seedPhrase index network
        = throw (JsTypeError "Cannot read properties of undefined (reading 'toString')"))
  /\ (forall seedPhrase index network seed master btcChild,
        bip39_mnemonicToSeed seedPhrase = ok seed ->
        bip32_fromSeed seed = ok master ->
        bip32_derivePath master (getTaprootDerivationPath None index network) = ok btcChild ->
        bip32_privateKey btcChild = None ->
        getBtcTaprootPrivateKey seedPhrase index network
        = throw (JsTypeError "Cannot read properties of undefined (reading 'toString')")).
Proof.
  intros Hecpair.
  split; [exact deriveStxAddressChain_no_private_key|].
  split; [|split; [|split]].
  - intros mnemonic index network seed master btcChild Hseed Hmaster Hchild Hkey.
    destruct (Exc_cases (walletFromSeedPhrase mnemonic index network))
      as [[e He]|[wallet Hw]]; [now exists e|].
    destruct (walletFromSeedPhrase_ok_inv _ _ _ _ Hw)
      as [seed' master' ? ? btcChild' keyPair ? ? ? ? ? Hseed' Hmaster' _ _ Hbtc Hpair].
    rewrite Hseed in Hseed'. injection Hseed' as <-.
    rewrite Hmaster in Hmaster'. injection Hmaster' as <-.
    rewrite Hchild in Hbtc. injection Hbtc as <-.
    rewrite Hkey in Hpair. now apply Hecpair in Hpair.
  - intros mnemonic index network seed master taprootBtcChild Hseed Hmaster Hchild Hkey.
    destruct (Exc_cases (walletFromSeedPhrase mnemonic index network))
      as [[e He]|[wallet Hw]]; [now exists e|].
    destruct (walletFromSeedPhrase_ok_inv _ _ _ _ Hw)
      as [seed' master' ? ? ? ? taprootBtcChild' key ? ? ?
          Hseed' Hmaster' _ _ _ _ Htaproot Hkey'].
    rewrite Hseed in Hseed'. injection Hseed' as <-.
    rewrite Hmaster in Hmaster'. injection Hmaster' as <-.
    rewrite Hchild in Htaproot. injection Htaproot as <-.
    rewrite Hkey in Hkey'. discriminate Hkey'.
  - intros seedPhrase index network seed master btcChild Hseed Hmaster Hchild Hkey.
    rewrite (getBtcPrivateKey_run _ _ _ _ _ _ Hseed Hmaster Hchild), Hkey. reflexivity.
  - intros seedPhrase index network seed master btcChild Hseed Hmaster Hchild Hkey.
    rewrite (getBtcTaprootPrivateKey_run _ _ _ _ _ _ Hseed Hmaster Hchild), Hkey.
    reflexivity.
Qed.

(** *** More on the path builders *)

Lemma accountIndex_of_account_or_zero (account : option Z) :
  accountIndex_of account = bigint_toString (account_or_zero account).
Proof.
  destruct account as [a|]; [|reflexivity].
  unfold accountIndex_of, truthy_number, account_or_zero.
  destruct (Z.eqb_spec a 0) as [->|_]; reflexivity.
Qed.

(** The text all three Bitcoin builders put after their purpose prefix. *)
Lemma getSegwitDerivationPath_shape (account : option Z) (index : Z) (network : NetworkType) :
  getSegwitDerivationPath account index network
  = BTC_SEGWIT_PATH_PURPOSE
    ++ coin_type_of network
    ++ ("'/" ++ accountIndex_of account ++ "'/0/" ++ bigint_toString index).
Proof. destruct network; reflexivity. Qed.

Lemma getTaprootDerivationPath_shape (account : option Z) (index : Z) (network : NetworkType) :
  getTaprootDerivationPath account index network
  = BTC_TAPROOT_PATH_PURPOSE
    ++ coin_type_of network
    ++ ("'/" ++ accountIndex_of account ++ "'/0/" ++ bigint_toString index).
Proof. destruct network; reflexivity. Qed.

Lemma getBitcoinDerivationPath_coin_shape (account : option Z) (index : Z)
    (network : NetworkType) :
  getBitcoinDerivationPath account index network
  = BTC_WRAPPED_SEGWIT_PATH_PURPOSE
    ++ coin_type_of network
    ++ ("'/" ++ accountIndex_of account ++ "'/0/" ++ bigint_toString index).
Proof. destruct network; reflexivity. Qed.

(** Two strings that differ in one character after a common prefix. *)
Lemma one_character_apart (purpose rest : string) :
  let mainnet := purpose ++ "0" ++ rest in
  let testnet := purpose ++ "1" ++ rest in
  String.length mainnet = String.length testnet
  /\ get (String.length purpose) mainnet = Some "0"%char
  /\ get (String.length purpose) testnet = Some "1"%char
  /\ forall k, k <> String.length purpose -> get k mainnet = get k testnet.
Proof.
  intros mainnet testnet. subst mainnet testnet.
  split; [rewrite !string_length_append; reflexivity|].
  split; [rewrite string_get_append_right, Nat.sub_diag by lia; reflexivity|].
  split; [rewrite string_get_append_right, Nat.sub_diag by lia; reflexivity|].
  intros k Hk.
  destruct (Nat.lt_ge_cases k (String.length purpose)) as [Hlt|Hge].
  - rewrite !string_get_append_left by assumption. reflexivity.
  - rewrite (string_get_append_right purpose ("0" ++ rest)),
      (string_get_append_right purpose ("1" ++ rest)) by assumption.
    destruct (k - String.length purpose) as [|j] eqn:Ej; [lia|].
    reflexivity.
Qed.

(** Whatever the purpose prefix, the text after it determines the network,
    the account (an omitted one counting as 0) and the index. *)
Lemma derivation_path_inj (purpose : string) account index network account' index' network' :
  purpose ++ coin_type_of network
    ++ ("'/" ++ accountIndex_of account ++ "'/0/" ++ bigint_toString index)
  = purpose ++ coin_type_of network'
    ++ ("'/" ++ accountIndex_of account' ++ "'/0/" ++ bigint_toString index') ->
  network = network'
  /\ account_or_zero account = account_or_zero account'
  /\ index = index'.
Proof.
  intros H. apply string_append_cancel_l in H.
  assert (Hnet : network = network').
  { destruct network, network'; try reflexivity; discriminate H. }
  subst network'. split; [reflexivity|].
  apply string_append_cancel_l in H.
  apply (string_append_cancel_l "'/") in H.
  rewrite !accountIndex_of_account_or_zero in H.
  apply (string_split_unique "'"%char) in H.
  - destruct H as [Hacc Hidx]. split.
    + now apply bigint_toString_inj.
    + apply (string_append_cancel_l "/0/") in Hidx. now apply bigint_toString_inj.
  - apply (string_forallb_impl decimal_char); [apply decimal_char_not_apostrophe|].
    apply bigint_toString_decimal.
  - apply (string_forallb_impl decimal_char); [apply decimal_char_not_apostrophe|].
    apply bigint_toString_decimal.
Qed.

Lemma derivation_path_same (purpose : string) account index network account' :
  account_or_zero account = account_or_zero account' ->
  purpose ++ coin_type_of network
    ++ ("'/" ++ accountIndex_of account ++ "'/0/" ++ bigint_toString index)
  = purpose ++ coin_type_of network
    ++ ("'/" ++ accountIndex_of account' ++ "'/0/" ++ bigint_toString index).
Proof. intros H. now rewrite !accountIndex_of_account_or_zero, H. Qed.

(** X1. [getSegwitDerivationPath] and [getTaprootDerivationPath] write, after
    their own purpose prefix, the same text as [getBitcoinDerivationPath]; so
    for each of them the Mainnet and the Testnet path of an account and index
    have the same length and differ in exactly one character, the coin-type
    digit right after the purpose prefix, [0] on Mainnet and [1] on Testnet. *)
Theorem segwit_taproot_paths_format (account : option Z) (index : Z) :
  (forall network, exists tail,
      getBitcoinDerivationPath account index network = BTC_WRAPPED_SEGWIT_PATH_PURPOSE ++ tail
      /\ getSegwitDerivationPath account index network = BTC_SEGWIT_PATH_PURPOSE ++ tail
      /\ getTaprootDerivationPath account index network = BTC_TAPROOT_PATH_PURPOSE ++ tail)
  /\ (let mainnet := getSegwitDerivationPath account index Mainnet in
      let testnet := getSegwitDerivationPath account index Testnet in
      let coin := String.length BTC_SEGWIT_PATH_PURPOSE in
      String.length mainnet = String.length testnet
      /\ get coin mainnet = Some "0"%char
      /\ get coin testnet = Some "1"%char
      /\ forall k, k <> coin -> get k mainnet = get k testnet)
  /\ (let mainnet := getTaprootDerivationPath account index Mainnet in
      let testnet := getTaprootDerivationPath account index Testnet in
      let coin := String.length BTC_TAPROOT_PATH_PURPOSE in
      String.length mainnet = String.length testnet
      /\ get coin mainnet = Some "0"%char
      /\ get coin testnet = Some "1"%char
      /\ forall k, k <> coin -> get k mainnet = get k testnet).
Proof.
  split; [|split].
  - intros network.
    exists (coin_type_of network
            ++ ("'/" ++ accountIndex_of account ++ "'/0/" ++ bigint_toString index)).
    rewrite getBitcoinDerivationPath_coin_shape, getSegwitDerivationPath_shape,
      getTaprootDerivationPath_shape.
    repeat split.
  - rewrite !getSegwitDerivationPath_shape. apply one_character_apart.
  - rewrite !getTaprootDerivationPath_shape. apply one_character_apart.
Qed.

(** X2. Each of the three Bitcoin path builders gives two argument triples
    the same path exactly when they agree on the network, on the index and on
    the account, an omitted account and the account [0n] being the same
    account.  No two different (network, account, index) share a path, and
    negative values are formatted like any other, sign included. *)
Theorem bitcoin_paths_identify_arguments
    (account account' : option Z) (index index' : Z) (network network' : NetworkType) :
  let same := network = network'
              /\ account_or_zero account = account_or_zero account'
              /\ index = index' in
  (getBitcoinDerivationPath account index network
   = getBitcoinDerivationPath account' index' network' <-> same)
  /\ (getSegwitDerivationPath account index network
      = getSegwitDerivationPath account' index' network' <-> same)
  /\ (getTaprootDerivationPath account index network
      = getTaprootDerivationPath account' index' network' <-> same).
Proof.
  intros same. subst same.
  rewrite !getBitcoinDerivationPath_coin_shape, !getSegwitDerivationPath_shape,
    !getTaprootDerivationPath_shape.
  split; [|split]; (split; [apply derivation_path_inj|]);
    intros (<- & Hacc & <-); now apply derivation_path_same.
Qed.

(** X3. The Stacks path identifies the index and nothing else: whatever the
    two chain IDs, the paths [getDerivationPath] builds are equal exactly when
    the indices are. *)
Theorem stacks_path_identifies_index (chain chain' : ChainID.t) (index index' : Z) :
  getDerivationPath chain index = getDerivationPath chain' index' <-> index = index'.
Proof.
  split.
  - rewrite (getDerivationPath_chain chain' chain). unfold getDerivationPath.
    intros H. apply string_append_cancel_l in H. now apply bigint_toString_inj.
  - intros <-. apply getDerivationPath_chain.
Qed.

(** *** More on wallet assembly and the lookup helpers *)

Lemma getStxAddressKeyChain_run mnemonic chainID accountIndex seed rootNode :
  bip39_mnemonicToSeed mnemonic = ok seed ->
  bip32_fromSeed seed = ok rootNode ->
  getStxAddressKeyChain mnemonic chainID accountIndex
  = (index <- BigInt accountIndex ;;
     deriveStxAddressChain chainID (Some index) rootNode).
Proof.
  intros Hseed Hroot. unfold getStxAddressKeyChain, Buffer_from. simpl.
  rewrite Hseed. simpl. rewrite Hroot. reflexivity.
Qed.

Lemma walletFromSeedPhrase_seed_error mnemonic index network e :
  bip39_mnemonicToSeed mnemonic = throw e
  \/ (exists seed, bip39_mnemonicToSeed mnemonic = ok seed /\ bip32_fromSeed seed = throw e) ->
  walletFromSeedPhrase mnemonic index network = throw e.
Proof.
  unfold walletFromSeedPhrase, Buffer_from. simpl.
  intros [H|(seed & Hseed & Hroot)].
  - rewrite H. reflexivity.
  - rewrite Hseed. simpl. rewrite Hroot. reflexivity.
Qed.

(** X4. Two wallets derived from one mnemonic, at whatever indices and on
    whatever networks, carry the same [seedPhrase] and the same
    [masterPubKey]; at the same index they also carry the same [stxPublicKey],
    whatever the two networks: only the Stacks address depends on the
    network. *)
Theorem wallets_of_one_mnemonic
    (mnemonic : string) (index index' : Z) (network network' : NetworkType)
    (wallet wallet' : BaseWallet) :
  walletFromSeedPhrase mnemonic index network = ok wallet ->
  walletFromSeedPhrase mnemonic index' network' = ok wallet' ->
  seedPhrase wallet = seedPhrase wallet'
  /\ masterPubKey wallet = masterPubKey wallet'
  /\ (index = index' -> stxPublicKey wallet = stxPublicKey wallet').
Proof.
  intros H H'.
  destruct (walletFromSeedPhrase_ok_inv _ _ _ _ H)
    as [seed master keychain stacksPublicKey ? ? ? ? ? ? ? Hseed Hmaster Hstx Hkey].
  destruct (walletFromSeedPhrase_ok_inv _ _ _ _ H')
    as [seed' master' keychain' stacksPublicKey' ? ? ? ? ? ? ? Hseed' Hmaster' Hstx' Hkey'].
  rewrite Hseed in Hseed'. injection Hseed' as <-.
  rewrite Hmaster in Hmaster'. injection Hmaster' as <-.
  simpl. split; [reflexivity|]. split; [reflexivity|].
  intros <-.
  rewrite (deriveStxAddressChain_other_chain _ (chainID_of network') _ _ _ Hstx) in Hstx'.
  simpl in Hstx'. run_in Hstx'. injection Hstx' as <-. cbn [privateKey] in Hkey'.
  rewrite Hkey in Hkey'. now injection Hkey'.
Qed.

(** X5. Whenever [walletFromSeedPhrase] returns a wallet,
    [getStxAddressKeyChain] on the same mnemonic, the network's chain ID and
    the same index returns a key chain; its address is the wallet's
    [stxAddress], and the wallet's [stxPublicKey] is the public key of that key
    chain's private key. *)
Theorem wallet_stacks_matches_keychain
    (mnemonic : string) (index : Z) (network : NetworkType) (wallet : BaseWallet) :
  walletFromSeedPhrase mnemonic index network = ok wallet ->
  exists keychain,
    getStxAddressKeyChain mnemonic (chainID_of network) (Integral index) = ok keychain
    /\ address keychain = stxAddress wallet
    /\ (stacksPrivateKey <- createStacksPrivateKey (privateKey keychain) ;;
        stacksPublicKey <- getPublicKey stacksPrivateKey ;;
        publicKeyToString stacksPublicKey) = ok (stxPublicKey wallet).
Proof.
  intros H.
  destruct (walletFromSeedPhrase_ok_inv _ _ _ _ H)
    as [seed master keychain stacksPublicKey ? ? ? ? ? ? ? Hseed Hmaster Hstx Hkey].
  exists keychain. split; [|split; [reflexivity | exact Hkey]].
  rewrite (getStxAddressKeyChain_run _ _ _ _ _ Hseed Hmaster). exact Hstx.
Qed.

(** X6. In a returned wallet the Bitcoin addresses belong to the published
    keys: [btcAddress] is the address of the P2SH payment that wraps the
    P2WPKH payment of the very public key whose hexadecimal text is
    [btcPublicKey], both built on [networks.bitcoin] for Mainnet and on
    [networks.testnet] for Testnet; and [ordinalsAddress] is the taproot
    address, on the network [getBtcNetwork] gives, of the private key whose
    schnorr public key is [ordinalsPublicKey]. *)
Theorem wallet_addresses_match_keys
    (mnemonic : string) (index : Z) (network : NetworkType) (wallet : BaseWallet) :
  walletFromSeedPhrase mnemonic index network = ok wallet ->
  exists pubkey redeem payment taprootKey btcNetwork schnorrPublicKey,
    btcPublicKey wallet = Buffer_toString_hex pubkey
    /\ payments_p2wpkh pubkey (bitcoinJsNetwork_of network) = ok redeem
    /\ payments_p2sh redeem pubkey (bitcoinJsNetwork_of network) = ok payment
    /\ btcAddress wallet = payment_address payment
    /\ getBtcNetwork network = ok btcNetwork
    /\ btc_getAddress "tr" taprootKey btcNetwork = ok (ordinalsAddress wallet)
    /\ schnorr_getPublicKey taprootKey = ok schnorrPublicKey
    /\ ordinalsPublicKey wallet = hex_encode schnorrPublicKey.
Proof.
  intros H.
  destruct (walletFromSeedPhrase_ok_inv _ _ _ _ H)
    as [seed master keychain stacksPublicKey btcChild keyPair taprootBtcChild
        taprootKey ordinals payment schnorrPublicKey
        _ _ _ _ _ _ _ _ Hordinals Hsegwit Hschnorr].
  simpl in Hordinals, Hsegwit.
  destruct (getBtcNetwork network) as [?|btcNetwork] eqn:Hnetwork;
    [discriminate Hordinals|].
  destruct (payments_p2wpkh (ECPair_publicKey keyPair) (bitcoinJsNetwork_of network))
    as [?|redeem] eqn:Hredeem; [discriminate Hsegwit|].
  exists (ECPair_publicKey keyPair), redeem, payment, taprootKey, btcNetwork,
    schnorrPublicKey.
  simpl. repeat split; try reflexivity; assumption.
Qed.

(** X7. A wallet made by [newWallet] can be restored from its own seed
    phrase: [walletFromSeedPhrase] on the record's [seedPhrase], index 0 and
    Mainnet returns the same record.  The seed phrase is the mnemonic of the
    first [ENTROPY_BYTES] bytes of the entropy pool, and those bytes are gone
    from the pool afterwards. *)
Theorem newWallet_restorable (pool pool' : Entropy) (wallet : BaseWallet) :
  newWallet pool = ok (wallet, pool') ->
  walletFromSeedPhrase (seedPhrase wallet) 0 Mainnet = ok wallet
  /\ exists entropy,
       bip39_entropyToMnemonic entropy = ok (seedPhrase wallet)
       /\ N.of_nat (List.length entropy) = ENTROPY_BYTES
       /\ pool = (entropy ++ pool')%list.
Proof.
  intros H.
  destruct (newWallet_run _ _ _ H) as (mnemonic & Hgenerate & Hwallet).
  destruct (walletFromSeedPhrase_rederive _ _ _ _ Hwallet) as [Hseed Hagain].
  split; [exact Hagain|].
  rewrite Hseed.
  unfold generateMnemonic, crypto_randomBytes in Hgenerate.
  destruct (N.ltb_spec (N.of_nat (List.length pool)) ENTROPY_BYTES) as [|Henough];
    [discriminate Hgenerate|].
  simpl in Hgenerate. run_in Hgenerate. injection Hgenerate as <- <-.
  exists (firstn (N.to_nat ENTROPY_BYTES) pool).
  split; [assumption|]. split.
  - rewrite firstn_length_le by lia. lia.
  - symmetry. apply firstn_skipn.
Qed.

(** X8. A failure to turn the mnemonic into a seed, or the seed into a root
    node, is the failure of every derivation: [walletFromSeedPhrase],
    [getBtcPrivateKey], [getBtcTaprootPrivateKey] and [getStxAddressKeyChain]
    reject with the very exception the library threw, whatever the index,
    the network and the chain ID. *)
Theorem seed_errors_propagate (mnemonic : string) (e : JsException) :
  bip39_mnemonicToSeed mnemonic = throw e
  \/ (exists seed, bip39_mnemonicToSeed mnemonic = ok seed /\ bip32_fromSeed seed = throw e) ->
  forall (index : Z) (network : NetworkType) (chainID : ChainID.t) (accountIndex : JsNumber),
    walletFromSeedPhrase mnemonic index network = throw e
    /\ getBtcPrivateKey mnemonic index network = throw e
    /\ getBtcTaprootPrivateKey mnemonic index network = throw e
    /\ getStxAddressKeyChain mnemonic chainID accountIndex = throw e.
Proof.
  intros H index network chainID accountIndex.
  split; [now apply walletFromSeedPhrase_seed_error|].
  unfold getBtcPrivateKey, getBtcTaprootPrivateKey, getStxAddressKeyChain, Buffer_from.
  simpl.
  destruct H as [H|(seed & Hseed & Hroot)].
  - rewrite H. repeat split.
  - rewrite Hseed. simpl. rewrite Hroot. repeat split.
Qed.

(** X9. [getStxAddressKeyChain] never rounds or defaults the account index.
    Once the seed and the root node are derived, an account index that is not
    an integer (a fraction, [NaN], an infinity) makes it reject with a range
    error, whatever the chain ID; and when it returns a key chain, the account
    index was an integer and the key chain's child is the node at the Stacks
    path of exactly that integer. *)
Theorem getStxAddressKeyChain_account_index
    (mnemonic : string) (chainID : ChainID.t) (accountIndex : JsNumber)
    (seed : Buffer) (rootNode : BIP32Interface) :
  bip39_mnemonicToSeed mnemonic = ok seed ->
  bip32_fromSeed seed = ok rootNode ->
  ((forall index, accountIndex <> Integral index) ->
   exists message,
     getStxAddressKeyChain mnemonic chainID accountIndex = throw (JsRangeError message))
  /\ (forall keychain,
        getStxAddressKeyChain mnemonic chainID accountIndex = ok keychain ->
        exists index,
          accountIndex = Integral index
          /\ bip32_derivePath rootNode (derivationPaths chainID ++ bigint_toString index)
             = ok (childKey keychain)).
Proof.
  intros Hseed Hroot.
  rewrite (getStxAddressKeyChain_run _ _ _ _ _ Hseed Hroot).
  split.
  - intros Hnot.
    destruct accountIndex as [z| | |]; [now destruct (Hnot z)| | |];
      eexists; reflexivity.
  - intros keychain H.
    destruct accountIndex as [z| | |]; try discriminate H.
    exists z. split; [reflexivity|]. simpl in H.
    destruct (deriveStxAddressChain_ok_inv _ _ _ _ H) as (? & ? & Hchild & _).
    exact Hchild.
Qed.

(** X10. The Stacks derivation comes first in [walletFromSeedPhrase]: when
    [deriveStxAddressChain] throws on the root node, [walletFromSeedPhrase]
    rejects with that exception, whatever the Bitcoin derivations would have
    given, and so does [getStxAddressKeyChain]. *)
Theorem stacks_error_propagates
    (mnemonic : string) (index : Z) (network : NetworkType)
    (seed : Buffer) (rootNode : BIP32Interface) (e : JsException) :
  bip39_mnemonicToSeed mnemonic = ok seed ->
  bip32_fromSeed seed = ok rootNode ->
  deriveStxAddressChain (chainID_of network) (Some index) rootNode = throw e ->
  walletFromSeedPhrase mnemonic index network = throw e
  /\ getStxAddressKeyChain mnemonic (chainID_of network) (Integral index) = throw e.
Proof.
  intros Hseed Hroot Hstx. split.
  - unfold walletFromSeedPhrase, Buffer_from. simpl.
    fold (chainID_of network).
    rewrite Hseed. simpl. rewrite Hroot. simpl. rewrite Hstx. reflexivity.
  - rewrite (getStxAddressKeyChain_run _ _ _ _ _ Hseed Hroot). exact Hstx.
Qed.

(** X14. A key chain returned by [deriveStxAddressChain] is consistent
    with itself: its child node has a private key, its [privateKey] string is
    the hexadecimal form of the key pair made from that key, and its [address]
    is the Stacks address of that very [privateKey] string under the Mainnet
    transaction version for [ChainID.Mainnet] and the Testnet one otherwise. *)
Theorem keychain_consistent
    (chain : ChainID.t) (index : option Z) (rootNode : BIP32Interface) (keychain : Keychain) :
  deriveStxAddressChain chain index rootNode = ok keychain ->
  exists childPrivateKey ecPair,
    bip32_privateKey (childKey keychain) = Some childPrivateKey
    /\ ECPair_fromPrivateKey (Some childPrivateKey) = ok ecPair
    /\ ecPairToHexString ecPair = ok (privateKey keychain)
    /\ getAddressFromPrivateKey (privateKey keychain)
         (match chain with
          | ChainID.Mainnet => TransactionVersion.Mainnet
          | ChainID.Testnet => TransactionVersion.Testnet
          end) = ok (address keychain).
Proof.
  intros H.
  destruct (deriveStxAddressChain_ok_inv _ _ _ _ H)
    as (childPrivateKey & ecPair & _ & Hkey & Hpair & Hhex & Haddress).
  exists childPrivateKey, ecPair. repeat split; assumption.
Qed.

(** X15. When the seed, the master node and the child node are derived and
    the child has a private key, [getBtcPrivateKey] (on the wrapped-segwit
    path) and [getBtcTaprootPrivateKey] (on the taproot path) return that key
    as hexadecimal text, two characters per byte, and decoding the text gives
    the key back. *)
Theorem private_key_helpers_return
    (seedPhrase : string) (index : Z) (network : NetworkType)
    (seed : Buffer) (master : BIP32Interface) :
  bip39_mnemonicToSeed seedPhrase = ok seed ->
  bip32_fromSeed seed = ok master ->
  (forall btcChild key,
      bip32_derivePath master (getBitcoinDerivationPath None index network) = ok btcChild ->
      bip32_privateKey btcChild = Some key ->
      exists text,
        getBtcPrivateKey seedPhrase index network = ok text
        /\ String.length text = 2 * List.length key
        /\ hex_decode text = ok key)
  /\ (forall btcChild key,
        bip32_derivePath master (getTaprootDerivationPath None index network) = ok btcChild ->
        bip32_privateKey btcChild = Some key ->
        exists text,
          getBtcTaprootPrivateKey seedPhrase index network = ok text
          /\ String.length text = 2 * List.length key
          /\ hex_decode text = ok key).
Proof.
  intros Hseed Hmaster. split; intros btcChild key Hchild Hkey;
    exists (Buffer_toString_hex key).
  - rewrite (getBtcPrivateKey_run _ _ _ _ _ _ Hseed Hmaster Hchild), Hkey.
    split; [reflexivity|].
    split; [apply Buffer_toString_hex_length | apply hex_decode_toString_hex].
  - rewrite (getBtcTaprootPrivateKey_run _ _ _ _ _ _ Hseed Hmaster Hchild), Hkey.
    split; [reflexivity|].
    split; [apply Buffer_toString_hex_length | apply hex_decode_toString_hex].
Qed.

(** *** Validators *)

(** What [validateStxAddress] computes: the decoded version is non-zero, the
    decoded hash is non-empty, and the version is one of the network's two. *)
Lemma validateStxAddress_eq stxAddress network :
  validateStxAddress stxAddress network
  = ok (match c32addressDecode stxAddress with
        | inl _ => false
        | inr (version, hash160) =>
            truthy_number version && truthy_string hash160
            && existsb (Z.eqb version) (stx_versions network)
        end).
Proof.
  unfold validateStxAddress. rewrite try_catch_returns. f_equal.
  destruct (c32addressDecode stxAddress) as [e|[version hash160]]; [reflexivity|].
  simpl.
  destruct (truthy_number version && truthy_string hash160); [|reflexivity].
  destruct network; simpl;
    destruct (Z.eqb version _); destruct (Z.eqb version _); reflexivity.
Qed.

Lemma stx_versions_In network version :
  existsb (Z.eqb version) (stx_versions network) = true <-> In version (stx_versions network).
Proof.
  rewrite existsb_exists. split.
  - intros (x & Hin & Heq). apply Z.eqb_eq in Heq. now subst.
  - intros Hin. exists version. split; [assumption | apply Z.eqb_refl].
Qed.

Lemma stx_versions_nonzero network version :
  In version (stx_versions network) -> truthy_number version = true.
Proof.
  destruct network; simpl; intros [<-|[<-|[]]]; reflexivity.
Qed.

Lemma stx_versions_disjoint network version :
  In version (stx_versions network) -> ~ In version (stx_versions (other_network network)).
Proof.
  destruct network; simpl; intros [<-|[<-|[]]] [H|[H|[]]]; discriminate H.
Qed.

Lemma truthy_string_true (s : string) : truthy_string s = true <-> s <> EmptyString.
Proof. destruct s; simpl; split; intros H; congruence. Qed.

(** C5, as the code has it. [validateStxAddress] always returns a boolean;
    it returns [true] exactly when the string c32-decodes to a non-empty hash
    and to a version that is one of the two of the given network; so it
    returns [false] for a string that does not decode, for a decoded version
    that belongs to the other network, and for a decoding with an empty
    hash. *)
Theorem validateStxAddress_accepts (stxAddress : string) (network : NetworkType) :
  (validateStxAddress stxAddress network = ok true
   \/ validateStxAddress stxAddress network = ok false)
  /\ (validateStxAddress stxAddress network = ok true <->
      exists version hash160,
        c32addressDecode stxAddress = ok (version, hash160)
        /\ hash160 <> EmptyString
        /\ In version (stx_versions network))
  /\ (forall e,
        c32addressDecode stxAddress = throw e ->
        validateStxAddress stxAddress network = ok false)
  /\ (forall version hash160,
        c32addressDecode stxAddress = ok (version, hash160) ->
        In version (stx_versions (other_network network)) ->
        validateStxAddress stxAddress network = ok false)
  /\ (forall version,
        c32addressDecode stxAddress = ok (version, EmptyString) ->
        validateStxAddress stxAddress network = ok false).
Proof.
  rewrite validateStxAddress_eq.
  destruct (c32addressDecode stxAddress) as [e|[version hash160]] eqn:Hdecode.
  - split; [now right|]. split; [|split; [|split]].
    + split; [discriminate|]. intros (? & ? & H & _). discriminate H.
    + reflexivity.
    + discriminate.
    + discriminate.
  - split; [destruct (_ && _); [now left | now right]|].
    split; [|split; [|split]].
    + split.
      * intros H. injection H as H.
        apply andb_prop in H. destruct H as [H Hin].
        apply andb_prop in H. destruct H as [_ Hhash].
        exists version, hash160. split; [reflexivity|].
        split; [now apply truthy_string_true | now apply stx_versions_In].
      * intros (v & h & Heq & Hhash & Hin). injection Heq as <- <-.
        rewrite (stx_versions_nonzero _ _ Hin).
        rewrite (proj2 (truthy_string_true _) Hhash).
        rewrite (proj2 (stx_versions_In _ _) Hin). reflexivity.
    + discriminate.
    + intros v h Heq Hin. injection Heq as <- <-.
      destruct (existsb (Z.eqb version) (stx_versions network)) eqn:Hex.
      * apply stx_versions_In in Hex.
        apply stx_versions_disjoint in Hex. contradiction.
      * now rewrite andb_false_r.
    + intros v Heq. injection Heq as _ ->.
      simpl. now rewrite andb_false_r.
Qed.

(** C10. A string whose decoding has version 0 or an empty hash is rejected,
    on either network and whatever versions the network admits. *)
Theorem validateStxAddress_rejects_falsy
    (stxAddress : string) (network : NetworkType) (version : Z) (hash160 : string) :
  c32addressDecode stxAddress = ok (version, hash160) ->
  version = 0%Z \/ hash160 = EmptyString ->
  validateStxAddress stxAddress network = ok false.
Proof.
  intros Hdecode Hfalsy.
  rewrite validateStxAddress_eq, Hdecode.
  destruct Hfalsy as [-> | ->]; [reflexivity|].
  simpl. now rewrite andb_false_r.
Qed.

(** C6. Both validators return a boolean on every input and never throw;
    when the decoding, respectively the validation, library throws, they
    return [false]. *)
Theorem validators_never_raise (input : string) (network : NetworkType) :
  (exists b, validateStxAddress input network = ok b)
  /\ (exists b, validateBtcAddress input network = ok b)
  /\ (forall e,
        c32addressDecode input = throw e ->
        validateStxAddress input network = ok false)
  /\ (forall e,
        validate input (btcAddressNetwork_of network) = throw e ->
        validateBtcAddress input network = ok false).
Proof.
  assert (Hbtc : validateBtcAddress input network
                 = ok (match validate input (btcAddressNetwork_of network) with
                       | inl _ => false
                       | inr b => b
                       end)).
  { unfold validateBtcAddress. fold (btcAddressNetwork_of network).
    apply try_catch_returns. }
  rewrite Hbtc, validateStxAddress_eq.
  split; [eauto|]. split; [eauto|].
  split; intros e ->; reflexivity.
Qed.

(** X11. No string is a valid Stacks address on both networks: what
    [validateStxAddress] accepts for one network it rejects for the other. *)
Theorem validateStxAddress_one_network (stxAddress : string) (network : NetworkType) :
  validateStxAddress stxAddress network = ok true ->
  validateStxAddress stxAddress (other_network network) = ok false.
Proof.
  rewrite !validateStxAddress_eq.
  destruct (c32addressDecode stxAddress) as [e|[version hash160]]; [discriminate|].
  intros H. injection H as H.
  apply andb_prop in H. destruct H as [_ Hin].
  apply stx_versions_In, stx_versions_disjoint in Hin.
  destruct (existsb (Z.eqb version) (stx_versions (other_network network))) eqn:Hother.
  - apply stx_versions_In in Hother. contradiction.
  - now rewrite andb_false_r.
Qed.

End WalletProperties.

(** ** Determinism of wallet assembly *)

Section EffectfulProperties.

Variable World : Type.

Context {K : Constants} {L : Collaborators}.

Variable R : Effects World.

Lemma same_outcome_ret {A : Type} (a : A) :
  same_outcome_in_every_world World (ret a).
Proof. intros w1 w2. reflexivity. Qed.

Lemma same_outcome_liftExc {A : Type} (c : Exc A) :
  same_outcome_in_every_world World (liftExc World c).
Proof. intros w1 w2. reflexivity. Qed.

(** Sequencing keeps the property: the continuation is run on the same value
    in both worlds, whatever the first call did to them. *)
Lemma same_outcome_bind {A B : Type} (c : Eff World A) (k : A -> Eff World B) :
  same_outcome_in_every_world World c ->
  (forall a, same_outcome_in_every_world World (k a)) ->
  same_outcome_in_every_world World (x <- c ;; k x).
Proof.
  intros Hc Hk w1 w2. specialize (Hc w1 w2). simpl.
  destruct (c w1) as [r1 w1'], (c w2) as [r2 w2']. simpl in Hc. subst r2.
  destruct r1 as [e|a]; [reflexivity | apply Hk].
Qed.

Hypothesis deterministic : DeterministicLibraries World R.

Ltac same_outcome :=
  repeat first
    [ apply same_outcome_ret
    | apply same_outcome_liftExc
    | apply (det_mnemonicToSeed World R deterministic)
    | apply (det_fromSeed World R deterministic)
    | apply (det_derivePath World R deterministic)
    | apply (det_ECPair_fromPrivateKey World R deterministic)
    | apply (det_ecPairToHexString World R deterministic)
    | apply (det_createStacksPrivateKey World R deterministic)
    | apply (det_getPublicKey World R deterministic)
    | apply (det_publicKeyToString World R deterministic)
    | apply (det_getAddressFromPrivateKey World R deterministic)
    | apply (det_getBtcNetwork World R deterministic)
    | apply (det_btc_getAddress World R deterministic)
    | apply (det_payments_p2wpkh World R deterministic)
    | apply (det_payments_p2sh World R deterministic)
    | apply (det_schnorr_getPublicKey World R deterministic)
    | apply same_outcome_bind; [|intros ?; cbv zeta] ].

Lemma deriveStxAddressChain_eff_same_outcome chain index rootNode :
  same_outcome_in_every_world World (deriveStxAddressChain_eff World R chain index rootNode).
Proof.
  unfold deriveStxAddressChain_eff. cbv zeta.
  apply same_outcome_bind; [same_outcome|].
  intros child. destruct (bip32_privateKey child); same_outcome.
Qed.

Lemma walletFromSeedPhrase_eff_same_outcome mnemonic index network :
  same_outcome_in_every_world World (walletFromSeedPhrase_eff World R mnemonic index network).
Proof.
  unfold walletFromSeedPhrase_eff.
  apply same_outcome_bind; [same_outcome|]. intros seed.
  apply same_outcome_bind; [same_outcome|]. intros rootNode. cbv zeta.
  apply same_outcome_bind; [apply deriveStxAddressChain_eff_same_outcome|].
  intros keychain. cbv zeta.
  same_outcome.
Qed.

(** C1. Against libraries whose calls answer by their arguments alone,
    [walletFromSeedPhrase] is deterministic: called on the same mnemonic, index
    and network in any two states of the world (in particular a second time,
    in the state the first call left), it has the same outcome, and two
    returned wallet records agree in each of the eight fields.  The function
    itself adds no dependence on the world: it calls nothing but those
    libraries. *)
Theorem walletFromSeedPhrase_deterministic
    (mnemonic : string) (index : Z) (network : NetworkType) (w1 w2 : World) :
  let call := walletFromSeedPhrase_eff World R mnemonic index network in
  fst (call w1) = fst (call w2)
  /\ fst (call (snd (call w1))) = fst (call w1)
  /\ forall wallet1 wallet2,
       fst (call w1) = ok wallet1 ->
       fst (call w2) = ok wallet2 ->
       stxAddress wallet1 = stxAddress wallet2
       /\ btcAddress wallet1 = btcAddress wallet2
       /\ ordinalsAddress wallet1 = ordinalsAddress wallet2
       /\ masterPubKey wallet1 = masterPubKey wallet2
       /\ stxPublicKey wallet1 = stxPublicKey wallet2
       /\ btcPublicKey wallet1 = btcPublicKey wallet2
       /\ ordinalsPublicKey wallet1 = ordinalsPublicKey wallet2
       /\ seedPhrase wallet1 = seedPhrase wallet2.
Proof.
  intros call.
  pose proof (walletFromSeedPhrase_eff_same_outcome mnemonic index network) as Hsame.
  fold call in Hsame.
  split; [apply Hsame|]. split; [apply Hsame|].
  intros wallet1 wallet2 H1 H2.
  rewrite (Hsame w1 w2), H2 in H1. injection H1 as <-.
  repeat split.
Qed.

End EffectfulProperties.

(** The collaborators that are functions of their arguments meet the
    contract, over the entropy pool as the world. *)
Lemma entropy_effects_deterministic {L : Collaborators} :
  DeterministicLibraries Entropy entropy_effects.
Proof. constructor; intros; apply same_outcome_liftExc. Qed.

(** A sequence of calls that leave the world alone is the sequence of their
    outcomes. *)
Lemma bind_leaves_world {World A B : Type}
    (c : Eff World A) (c' : Exc A) (k : A -> Eff World B) (k' : A -> Exc B) (w : World) :
  c w = (c', w) ->
  (forall a, k a w = (k' a, w)) ->
  (x <- c ;; k x) w = (x <- c' ;; k' x, w).
Proof.
  intros Hc Hk. simpl. rewrite Hc. destruct c' as [e|a]; [reflexivity | apply Hk].
Qed.

Lemma deriveStxAddressChain_eff_entropy {K : Constants} {L : Collaborators}
    chain index rootNode (pool : Entropy) :
  deriveStxAddressChain_eff Entropy entropy_effects chain index rootNode pool
  = (deriveStxAddressChain chain index rootNode, pool).
Proof.
  unfold deriveStxAddressChain_eff, deriveStxAddressChain. cbv zeta.
  apply bind_leaves_world; [reflexivity|]. intros child.
  destruct (bip32_privateKey child); [|reflexivity].
  repeat (apply bind_leaves_world; [reflexivity|]; intros ?).
  reflexivity.
Qed.

(** On those collaborators the wallet assembly written against calls on a
    world is the wallet assembly written above, and leaves the pool alone. *)
Lemma walletFromSeedPhrase_eff_entropy {K : Constants} {L : Collaborators}
    (mnemonic : string) (index : Z) (network : NetworkType) (pool : Entropy) :
  walletFromSeedPhrase_eff Entropy entropy_effects mnemonic index network pool
  = (walletFromSeedPhrase mnemonic index network, pool).
Proof.
  unfold walletFromSeedPhrase_eff, walletFromSeedPhrase.
  apply bind_leaves_world; [reflexivity|]. intros seed.
  apply bind_leaves_world; [reflexivity|]. intros rootNode. cbv zeta.
  apply bind_leaves_world; [apply deriveStxAddressChain_eff_entropy|]. intros keychain.
  cbv zeta.
  repeat (apply bind_leaves_world; [reflexivity|]; intros ?).
  reflexivity.
Qed.

(** ** Seed encryption callbacks *)

(** C8. With one password-hash generator handed to both functions, and a
    decryption handler that gives the seed back from the hexadecimal text of
    whatever the encryption handler produced under the generated hash:
    [encryptMnemonicWithCallback] returns that hexadecimal text whenever the
    two callbacks it calls return, and [decryptMnemonicWithCallback] applied to
    what [encryptMnemonicWithCallback] returned gives the original seed. *)
Theorem decrypt_encrypt_inverse
    (password seed : string)
    (passwordHashGenerator : string -> Promise PasswordHash)
    (mnemonicEncryptionHandler : string -> string -> Promise Buffer)
    (mnemonicDecryptionHandler : Buffer + string -> string -> Promise string) :
  let encryption :=
    {| EncryptMnemonicArgs.password := password;
       EncryptMnemonicArgs.seed := seed;
       EncryptMnemonicArgs.passwordHashGenerator := passwordHashGenerator;
       EncryptMnemonicArgs.mnemonicEncryptionHandler := mnemonicEncryptionHandler |} in
  let decryption encryptedSeed :=
    {| DecryptMnemonicArgs.password := password;
       DecryptMnemonicArgs.encryptedSeed := encryptedSeed;
       DecryptMnemonicArgs.passwordHashGenerator := passwordHashGenerator;
       DecryptMnemonicArgs.mnemonicDecryptionHandler := mnemonicDecryptionHandler |} in
  (forall generated buf,
      passwordHashGenerator password = ok generated ->
      mnemonicEncryptionHandler seed (hash generated) = ok buf ->
      mnemonicDecryptionHandler (inr (Buffer_toString_hex buf)) (hash generated) = ok seed) ->
  (forall generated buf,
      passwordHashGenerator password = ok generated ->
      mnemonicEncryptionHandler seed (hash generated) = ok buf ->
      encryptMnemonicWithCallback encryption = ok (Buffer_toString_hex buf))
  /\ (forall encryptedSeed,
        encryptMnemonicWithCallback encryption = ok encryptedSeed ->
        decryptMnemonicWithCallback (decryption encryptedSeed) = ok seed).
Proof.
  intros encryption decryption Hinverse.
  unfold encryptMnemonicWithCallback, decryptMnemonicWithCallback.
  subst encryption decryption. simpl.
  split.
  - intros generated buf Hhash Henc. rewrite Hhash. simpl. rewrite Henc. reflexivity.
  - intros encryptedSeed H.
    destruct (passwordHashGenerator password) as [?|generated] eqn:Hhash;
      [discriminate H|].
    destruct (mnemonicEncryptionHandler seed (hash generated)) as [?|buf] eqn:Henc;
      [discriminate H|].
    injection H as <-.
    rewrite (Hinverse generated buf eq_refl Henc). reflexivity.
Qed.

(** X12. Errors of the callbacks pass through unchanged: when the password
    hash generator rejects, both functions reject with its exception; when the
    encryption handler rejects, [encryptMnemonicWithCallback] rejects with its
    exception; and once the hash is generated, [decryptMnemonicWithCallback]
    resolves or rejects exactly as the decryption handler does on the
    encrypted text, passed as a string, and the generated hash. *)
Theorem mnemonic_callback_outcomes
    (password seed encryptedSeed : string)
    (passwordHashGenerator : string -> Promise PasswordHash)
    (mnemonicEncryptionHandler : string -> string -> Promise Buffer)
    (mnemonicDecryptionHandler : Buffer + string -> string -> Promise string) :
  let encryption :=
    {| EncryptMnemonicArgs.password := password;
       EncryptMnemonicArgs.seed := seed;
       EncryptMnemonicArgs.passwordHashGenerator := passwordHashGenerator;
       EncryptMnemonicArgs.mnemonicEncryptionHandler := mnemonicEncryptionHandler |} in
  let decryption :=
    {| DecryptMnemonicArgs.password := password;
       DecryptMnemonicArgs.encryptedSeed := encryptedSeed;
       DecryptMnemonicArgs.passwordHashGenerator := passwordHashGenerator;
       DecryptMnemonicArgs.mnemonicDecryptionHandler := mnemonicDecryptionHandler |} in
  (forall e,
      passwordHashGenerator password = throw e ->
      encryptMnemonicWithCallback encryption = throw e
      /\ decryptMnemonicWithCallback decryption = throw e)
  /\ (forall generated e,
        passwordHashGenerator password = ok generated ->
        mnemonicEncryptionHandler seed (hash generated) = throw e ->
        encryptMnemonicWithCallback encryption = throw e)
  /\ (forall generated,
        passwordHashGenerator password = ok generated ->
        decryptMnemonicWithCallback decryption
        = mnemonicDecryptionHandler (inr encryptedSeed) (hash generated)).
Proof.
  intros encryption decryption.
  unfold encryptMnemonicWithCallback, decryptMnemonicWithCallback.
  subst encryption decryption. simpl.
  split; [|split].
  - intros e ->. split; reflexivity.
  - intros generated e Hhash Henc. rewrite Hhash. simpl. rewrite Henc. reflexivity.
  - intros generated Hhash. rewrite Hhash. simpl.
    destruct (mnemonicDecryptionHandler (inr encryptedSeed) (hash generated)); reflexivity.
Qed.

(** X13. What [encryptMnemonicWithCallback] returns is the hexadecimal text
    of the buffer the encryption handler produced under the generated hash:
    two characters per byte, all of them lower-case hexadecimal digits, and
    decoding the text gives the buffer back. *)
Theorem encrypted_seed_is_hex (cb : EncryptMnemonicArgs.t) (encryptedSeed : string) :
  encryptMnemonicWithCallback cb = ok encryptedSeed ->
  exists generated buf,
    EncryptMnemonicArgs.passwordHashGenerator cb (EncryptMnemonicArgs.password cb)
    = ok generated
    /\ EncryptMnemonicArgs.mnemonicEncryptionHandler cb
         (EncryptMnemonicArgs.seed cb) (hash generated) = ok buf
    /\ encryptedSeed = Buffer_toString_hex buf
    /\ String.length encryptedSeed = 2 * List.length buf
    /\ string_forallb lower_hex_char encryptedSeed = true
    /\ hex_decode encryptedSeed = ok buf.
Proof.
  unfold encryptMnemonicWithCallback. intros H. simpl in H.
  run_in H. run_in H. injection H as <-.
  exists p, b. repeat split; try assumption.
  - apply Buffer_toString_hex_length.
  - apply Buffer_toString_hex_lower.
  - apply hex_decode_toString_hex.
Qed.

(** ** Runs on the test doubles *)

(** The statements above, applied to concrete inputs with the stand-in
    collaborators of [Stub]. *)

Lemma getBitcoinDerivationPath_format_run :
  getBitcoinDerivationPath (K := Stub.constants) None 0 Mainnet = "m/49'/0'/0'/0/0"
  /\ get 9 (getBitcoinDerivationPath (K := Stub.constants) (Some 2%Z) 5 Mainnet)
     = get 9 (getBitcoinDerivationPath (K := Stub.constants) (Some 2%Z) 5 Testnet).
Proof.
  split.
  - exact (proj1 (getBitcoinDerivationPath_format (K := Stub.constants))).
  - apply (proj2 (proj2 (getBitcoinDerivationPath_format (K := Stub.constants)))
             (Some 2%Z) 5%Z).
    simpl. discriminate.
Defined.

Lemma deriveStxAddressChain_path_run :
  exists rootNode keychain,
    Stub.fromSeed (list_byte_of_string "abandon") = ok rootNode
    /\ deriveStxAddressChain (K := Stub.constants) (L := Stub.full)
         ChainID.Testnet (Some 7%Z) rootNode = ok keychain
    /\ bip32_derivePath (Collaborators := Stub.full) rootNode "m/44'/5757'/0'/0/7"
       = ok (childKey keychain).
Proof.
  eexists. eexists.
  split; [vm_compute; reflexivity|].
  split; [vm_compute; reflexivity|].
  apply (proj1 (proj2 (proj2 (proj2
           (deriveStxAddressChain_path (K := Stub.constants) (L := Stub.full)
              ChainID.Testnet 7%Z _))))).
  vm_compute. reflexivity.
Defined.

Lemma stub_ECPair_rejects_undefined (watch_only : string -> bool) :
  ECPair_rejects_undefined (L := Stub.collaborators watch_only).
Proof. intros pair H. discriminate H. Defined.

Lemma private_key_helpers_match_wallet_run :
  exists wallet,
    walletFromSeedPhrase (K := Stub.constants) (L := Stub.full) "abandon" 3 Testnet
    = ok wallet
    /\ btcPublicKey wallet = "332f302f27302f27312f2739342f6d6e6f646e616261"
    /\ ordinalsPublicKey wallet = "332f302f27302f27312f2736382f6d6e6f646e616261"
    /\ exists seed master btcChild btcPrivateKey keyPair
              taprootBtcChild taprootPrivateKey taprootInternalPubKey,
         bip39_mnemonicToSeed (Collaborators := Stub.full) "abandon" = ok seed
         /\ bip32_fromSeed (Collaborators := Stub.full) seed = ok master
         /\ bip32_derivePath (Collaborators := Stub.full) master
              (getBitcoinDerivationPath (K := Stub.constants) None 3 Testnet) = ok btcChild
         /\ bip32_privateKey (Collaborators := Stub.full) btcChild = Some btcPrivateKey
         /\ ECPair_fromPrivateKey (Collaborators := Stub.full) (Some btcPrivateKey) = ok keyPair
         /\ btcPublicKey wallet
            = Buffer_toString_hex (ECPair_publicKey (Collaborators := Stub.full) keyPair)
         /\ getBtcPrivateKey (K := Stub.constants) (L := Stub.full) "abandon" 3 Testnet
            = ok (Buffer_toString_hex btcPrivateKey)
         /\ bip32_derivePath (Collaborators := Stub.full) master
              (getTaprootDerivationPath (K := Stub.constants) None 3 Testnet)
            = ok taprootBtcChild
         /\ bip32_privateKey (Collaborators := Stub.full) taprootBtcChild
            = Some taprootPrivateKey
         /\ schnorr_getPublicKey (Collaborators := Stub.full) taprootPrivateKey
            = ok taprootInternalPubKey
         /\ ordinalsPublicKey wallet = hex_encode taprootInternalPubKey
         /\ getBtcTaprootPrivateKey (K := Stub.constants) (L := Stub.full) "abandon" 3 Testnet
            = ok (Buffer_toString_hex taprootPrivateKey).
Proof.
  eexists.
  split; [vm_compute; reflexivity|].
  split; [vm_compute; reflexivity|].
  split; [vm_compute; reflexivity|].
  apply (private_key_helpers_match_wallet (K := Stub.constants) (L := Stub.full)).
  - apply stub_ECPair_rejects_undefined.
  - vm_compute. reflexivity.
Defined.

Lemma derivations_fail_without_private_key_run :
  (exists rootNode,
      Stub.fromSeed (list_byte_of_string "abandon") = ok rootNode
      /\ deriveStxAddressChain (K := Stub.constants) (L := Stub.neutered)
           ChainID.Mainnet (Some 0%Z) rootNode
         = throw (JsError "Unable to derive private key from `rootNode`, bip32 master keychain"))
  /\ (exists e,
        walletFromSeedPhrase (K := Stub.constants) (L := Stub.neutered_under "m/49'/")
          "abandon" 0 Mainnet = throw e)
  /\ (exists e,
        walletFromSeedPhrase (K := Stub.constants) (L := Stub.neutered_under "m/86'/")
          "abandon" 0 Mainnet = throw e)
  /\ getBtcPrivateKey (K := Stub.constants) (L := Stub.neutered) "abandon" 0 Mainnet
     = throw (JsTypeError "Cannot read properties of undefined (reading 'toString')")
  /\ getBtcTaprootPrivateKey (K := Stub.constants) (L := Stub.neutered) "abandon" 0 Mainnet
     = throw (JsTypeError "Cannot read properties of undefined (reading 'toString')").
Proof.
  split.
  { eexists. split; [vm_compute; reflexivity|].
    eapply (proj1 (derivations_fail_without_private_key
                     (K := Stub.constants) (L := Stub.neutered)
                     (stub_ECPair_rejects_undefined _)));
      vm_compute; reflexivity. }
  split.
  { eapply (proj1 (proj2 (derivations_fail_without_private_key
                     (K := Stub.constants) (L := Stub.neutered_under "m/49'/")
                     (stub_ECPair_rejects_undefined _))));
      vm_compute; reflexivity. }
  split.
  { eapply (proj1 (proj2 (proj2 (derivations_fail_without_private_key
                     (K := Stub.constants) (L := Stub.neutered_under "m/86'/")
                     (stub_ECPair_rejects_undefined _)))));
      vm_compute; reflexivity. }
  split.
  { eapply (proj1 (proj2 (proj2 (proj2 (derivations_fail_without_private_key
                     (K := Stub.constants) (L := Stub.neutered)
                     (stub_ECPair_rejects_undefined _))))));
      vm_compute; reflexivity. }
  eapply (proj2 (proj2 (proj2 (proj2 (derivations_fail_without_private_key
                   (K := Stub.constants) (L := Stub.neutered)
                   (stub_ECPair_rejects_undefined _))))));
    vm_compute; reflexivity.
Defined.

Lemma getStxAddressKeyChain_chain_independent_run :
  exists k1 k2,
    getStxAddressKeyChain (K := Stub.constants) (L := Stub.full)
      "abandon" ChainID.Mainnet (Integral 2) = ok k1
    /\ getStxAddressKeyChain (K := Stub.constants) (L := Stub.full)
         "abandon" ChainID.Testnet (Integral 2) = ok k2
    /\ childKey k1 = childKey k2
    /\ privateKey k1 = privateKey k2
    /\ address k1 = "SP6162616e646f6e6d2f3434272f35373537272f30272f302f3201"
    /\ address k2 = "ST6162616e646f6e6d2f3434272f35373537272f30272f302f3201".
Proof.
  eexists. eexists.
  split; [vm_compute; reflexivity|].
  split; [vm_compute; reflexivity|].
  split; [|split; [|split; reflexivity]].
  - eapply (proj1 (getStxAddressKeyChain_chain_independent
                     (K := Stub.constants) (L := Stub.full)
                     "abandon" (Integral 2) _ _ _ _)).
  - eapply (proj1 (proj2 (getStxAddressKeyChain_chain_independent
                     (K := Stub.constants) (L := Stub.full)
                     "abandon" (Integral 2) _ _ _ _))).
  Unshelve. all: vm_compute; reflexivity.
Defined.

(** The mainnet single-sig address of c32check's documentation is accepted on
    Mainnet and rejected on Testnet; a string that does not decode is
    rejected. *)
Lemma validateStxAddress_accepts_run :
  validateStxAddress (L := Stub.full) "SP2J6ZY48GV1EZ5V2V5RB9MP66SW86PYKKNRV9EJ7" Mainnet
  = ok true
  /\ validateStxAddress (L := Stub.full) "SP2J6ZY48GV1EZ5V2V5RB9MP66SW86PYKKNRV9EJ7" Testnet
     = ok false
  /\ validateStxAddress (L := Stub.full) "not an address" Mainnet = ok false.
Proof.
  split; [|split].
  - apply (proj1 (proj2 (validateStxAddress_accepts (L := Stub.full) _ Mainnet))).
    exists 22%Z, "a46ff88886c2ef9762d970b4d2c63678835bd39d".
    split; [vm_compute; reflexivity|].
    split; [discriminate | simpl; auto].
  - apply (proj1 (proj2 (proj2 (proj2
             (validateStxAddress_accepts (L := Stub.full) _ Testnet))))
             22%Z "a46ff88886c2ef9762d970b4d2c63678835bd39d").
    + vm_compute. reflexivity.
    + simpl. auto.
  - apply (proj1 (proj2 (proj2 (validateStxAddress_accepts (L := Stub.full) _ Mainnet)))
             (JsError "Invalid c32 address: must start with S")).
    vm_compute. reflexivity.
Defined.

(** [SP37JJX3D] is the c32check encoding of version 22 with an empty payload:
    it decodes, its version is [MainnetSingleSig], and [validateStxAddress]
    rejects it on Mainnet. *)
Lemma validateStxAddress_rejects_empty_hash :
  c32addressDecode (Collaborators := Stub.full) "SP37JJX3D"
  = ok (AddressVersion.MainnetSingleSig, EmptyString)
  /\ In AddressVersion.MainnetSingleSig (stx_versions Mainnet)
  /\ validateStxAddress (L := Stub.full) "SP37JJX3D" Mainnet = ok false
  /\ ~ accepts_every_decodable_version (L := Stub.full).
Proof.
  split; [vm_compute; reflexivity|].
  split; [simpl; auto|].
  split; [vm_compute; reflexivity|].
  intros H.
  specialize (H "SP37JJX3D" Mainnet AddressVersion.MainnetSingleSig EmptyString).
  assert (Hfalse : validateStxAddress (L := Stub.full) "SP37JJX3D" Mainnet = ok true).
  { apply H; [vm_compute; reflexivity | simpl; auto]. }
  vm_compute in Hfalse. discriminate Hfalse.
Qed.

Lemma validateStxAddress_rejects_falsy_run :
  validateStxAddress (L := Stub.full) "S02J6ZY48GV1EZ5V2V5RB9MP66SW86PYKKPVKG2CE" Mainnet
  = ok false
  /\ validateStxAddress (L := Stub.full) "STEY92JD" Testnet = ok false.
Proof.
  split.
  - apply (validateStxAddress_rejects_falsy (L := Stub.full) _ Mainnet
             0%Z "a46ff88886c2ef9762d970b4d2c63678835bd39d").
    + vm_compute. reflexivity.
    + left. reflexivity.
  - apply (validateStxAddress_rejects_falsy (L := Stub.full) _ Testnet
             AddressVersion.TestnetSingleSig EmptyString).
    + vm_compute. reflexivity.
    + right. reflexivity.
Defined.

Lemma validators_never_raise_run :
  validateStxAddress (L := Stub.full) "not an address" Testnet = ok false
  /\ validateBtcAddress (L := Stub.full) EmptyString Testnet = ok false.
Proof.
  split.
  - apply (proj1 (proj2 (proj2 (validators_never_raise (L := Stub.full) _ Testnet)))
             (JsError "Invalid c32 address: must start with S")).
    vm_compute. reflexivity.
  - apply (proj2 (proj2 (proj2 (validators_never_raise (L := Stub.full) _ Testnet)))
             (JsTypeError "Invalid address")).
    vm_compute. reflexivity.
Defined.

Lemma decrypt_encrypt_inverse_run :
  exists encryptedSeed,
    encryptMnemonicWithCallback
      {| EncryptMnemonicArgs.password := "hunter2";
         EncryptMnemonicArgs.seed := "abandon ability able";
         EncryptMnemonicArgs.passwordHashGenerator := Stub.hashGenerator;
         EncryptMnemonicArgs.mnemonicEncryptionHandler := Stub.encryptionHandler |}
    = ok encryptedSeed
    /\ decryptMnemonicWithCallback
         {| DecryptMnemonicArgs.password := "hunter2";
            DecryptMnemonicArgs.encryptedSeed := encryptedSeed;
            DecryptMnemonicArgs.passwordHashGenerator := Stub.hashGenerator;
            DecryptMnemonicArgs.mnemonicDecryptionHandler := Stub.decryptionHandler |}
       = ok "abandon ability able".
Proof.
  eexists.
  split; [vm_compute; reflexivity|].
  assert (Hinverse : forall generated buf,
             Stub.hashGenerator "hunter2" = ok generated ->
             Stub.encryptionHandler "abandon ability able" (hash generated) = ok buf ->
             Stub.decryptionHandler (inr (Buffer_toString_hex buf)) (hash generated)
             = ok "abandon ability able").
  { intros generated buf Hhash Henc.
    injection Hhash as <-. injection Henc as <-.
    vm_compute. reflexivity. }
  apply (proj2 (decrypt_encrypt_inverse "hunter2" "abandon ability able"
                  Stub.hashGenerator Stub.encryptionHandler Stub.decryptionHandler
                  Hinverse)).
  vm_compute. reflexivity.
Defined.

(** *** Further runs *)

(** From here on the collaborators are [Stub.full] and the constants
    [Stub.constants] unless a statement names others. *)
#[local] Existing Instance Stub.constants.
#[local] Existing Instance Stub.full.

Lemma segwit_taproot_paths_format_run :
  get 9 (getSegwitDerivationPath (Some 2%Z) 5 Mainnet)
  = get 9 (getSegwitDerivationPath (Some 2%Z) 5 Testnet)
  /\ get 6 (getTaprootDerivationPath (Some 2%Z) 5 Testnet) = Some "1"%char.
Proof.
  split.
  - apply (proj2 (proj2 (proj2 (proj1 (proj2
             (segwit_taproot_paths_format (Some 2%Z) 5%Z)))))).
    simpl. discriminate.
  - exact (proj1 (proj2 (proj2 (proj2 (proj2
             (segwit_taproot_paths_format (Some 2%Z) 5%Z)))))).
Defined.

Lemma bitcoin_paths_identify_arguments_run :
  getBitcoinDerivationPath (Some 0%Z) (-5) Testnet = getBitcoinDerivationPath None (-5) Testnet
  /\ getTaprootDerivationPath None 1 Mainnet <> getTaprootDerivationPath None 1 Testnet
  /\ getSegwitDerivationPath (Some 1%Z) 12 Mainnet <> getSegwitDerivationPath (Some 11%Z) 2 Mainnet.
Proof.
  split; [|split].
  - apply (proj1 (bitcoin_paths_identify_arguments (Some 0%Z) None (-5) (-5) Testnet Testnet)).
    repeat split.
  - intros H.
    apply (proj2 (proj2 (bitcoin_paths_identify_arguments None None 1 1 Mainnet Testnet))) in H.
    destruct H as [H _]. discriminate H.
  - intros H.
    apply (proj1 (proj2 (bitcoin_paths_identify_arguments
                           (Some 1%Z) (Some 11%Z) 12 2 Mainnet Mainnet))) in H.
    destruct H as (_ & H & _). discriminate H.
Defined.

Lemma stacks_path_identifies_index_run :
  getDerivationPath ChainID.Mainnet 4 = getDerivationPath ChainID.Testnet 4
  /\ getDerivationPath ChainID.Mainnet 4 <> getDerivationPath ChainID.Mainnet 40.
Proof.
  split.
  - apply (stacks_path_identifies_index ChainID.Mainnet ChainID.Testnet 4 4). reflexivity.
  - intros H.
    apply (stacks_path_identifies_index ChainID.Mainnet ChainID.Mainnet 4 40) in H.
    discriminate H.
Defined.

Lemma wallets_of_one_mnemonic_run :
  exists wallet wallet',
    walletFromSeedPhrase "abandon" 2 Mainnet = ok wallet
    /\ walletFromSeedPhrase "abandon" 2 Testnet = ok wallet'
    /\ stxAddress wallet <> stxAddress wallet'
    /\ seedPhrase wallet = seedPhrase wallet'
    /\ masterPubKey wallet = masterPubKey wallet'
    /\ stxPublicKey wallet = stxPublicKey wallet'.
Proof.
  eexists. eexists.
  split; [vm_compute; reflexivity|].
  split; [vm_compute; reflexivity|].
  split; [vm_compute; discriminate|].
  assert (H := wallets_of_one_mnemonic "abandon" 2 2 Mainnet Testnet _ _ eq_refl eq_refl).
  destruct H as (Hseed & Hmaster & Hstx).
  split; [exact Hseed|]. split; [exact Hmaster | exact (Hstx eq_refl)].
Defined.

Lemma wallet_stacks_matches_keychain_run :
  exists wallet keychain,
    walletFromSeedPhrase "abandon" 1 Testnet = ok wallet
    /\ getStxAddressKeyChain "abandon" ChainID.Testnet (Integral 1) = ok keychain
    /\ address keychain = stxAddress wallet.
Proof.
  eexists.
  assert (H := wallet_stacks_matches_keychain "abandon" 1 Testnet _ eq_refl).
  destruct H as (keychain & Hrun & Haddress & _).
  exists keychain.
  split; [reflexivity|]. split; [exact Hrun | exact Haddress].
Defined.

Lemma wallet_addresses_match_keys_run :
  exists wallet pubkey redeem payment,
    walletFromSeedPhrase "abandon" 1 Testnet = ok wallet
    /\ btcPublicKey wallet = Buffer_toString_hex pubkey
    /\ payments_p2wpkh pubkey networks_testnet = ok redeem
    /\ payments_p2sh redeem pubkey networks_testnet = ok payment
    /\ btcAddress wallet = payment_address payment.
Proof.
  eexists.
  assert (H := wallet_addresses_match_keys "abandon" 1 Testnet _ eq_refl).
  destruct H as (pubkey & redeem & payment & ? & ? & ? & Hkey & Hredeem & Hpayment & Haddress & _).
  exists pubkey, redeem, payment.
  split; [reflexivity|]. repeat split; assumption.
Defined.

Lemma newWallet_restorable_run :
  exists wallet pool',
    newWallet (repeat Byte.x2a 20) = ok (wallet, pool')
    /\ List.length pool' = 4
    /\ walletFromSeedPhrase (seedPhrase wallet) 0 Mainnet = ok wallet.
Proof.
  eexists. eexists.
  split; [vm_compute; reflexivity|].
  split; [reflexivity|].
  eapply proj1. eapply (newWallet_restorable (repeat Byte.x2a 20)).
  vm_compute. reflexivity.
Defined.

(** The stand-in [fromSeed] refuses an empty seed, which the empty mnemonic
    gives. *)
Lemma seed_errors_propagate_run :
  walletFromSeedPhrase EmptyString 0 Mainnet
  = throw (JsTypeError "Seed should be at least 128 bits")
  /\ getBtcPrivateKey EmptyString 0 Mainnet
     = throw (JsTypeError "Seed should be at least 128 bits")
  /\ getBtcTaprootPrivateKey EmptyString 0 Mainnet
     = throw (JsTypeError "Seed should be at least 128 bits")
  /\ getStxAddressKeyChain EmptyString ChainID.Mainnet NaN
     = throw (JsTypeError "Seed should be at least 128 bits").
Proof.
  apply (seed_errors_propagate EmptyString (JsTypeError "Seed should be at least 128 bits")).
  right. exists []. split; reflexivity.
Defined.

Lemma getStxAddressKeyChain_account_index_run :
  (exists message,
      getStxAddressKeyChain "abandon" ChainID.Mainnet (Fractional "1.5")
      = throw (JsRangeError message))
  /\ (exists message,
        getStxAddressKeyChain "abandon" ChainID.Testnet NaN = throw (JsRangeError message)).
Proof.
  split.
  - eapply (fun seed rootNode Hseed Hroot =>
              proj1 (getStxAddressKeyChain_account_index
                       "abandon" ChainID.Mainnet (Fractional "1.5")
                       seed rootNode Hseed Hroot));
      try (vm_compute; reflexivity).
    intros index H. discriminate H.
  - eapply (fun seed rootNode Hseed Hroot =>
              proj1 (getStxAddressKeyChain_account_index
                       "abandon" ChainID.Testnet NaN seed rootNode Hseed Hroot));
      try (vm_compute; reflexivity).
    intros index H. discriminate H.
Defined.

Lemma stacks_error_propagates_run :
  walletFromSeedPhrase (L := Stub.neutered_under "m/44'/") "abandon" 0 Mainnet
  = throw (JsError "Unable to derive private key from `rootNode`, bip32 master keychain").
Proof.
  eapply (fun seed rootNode Hseed Hroot Hstx =>
            proj1 (stacks_error_propagates (L := Stub.neutered_under "m/44'/")
                     "abandon" 0 Mainnet seed rootNode _ Hseed Hroot Hstx));
    vm_compute; reflexivity.
Defined.

Lemma validateStxAddress_one_network_run :
  validateStxAddress "ST2J6ZY48GV1EZ5V2V5RB9MP66SW86PYKKQYAC0RQ" Mainnet = ok false.
Proof.
  apply (validateStxAddress_one_network "ST2J6ZY48GV1EZ5V2V5RB9MP66SW86PYKKQYAC0RQ" Testnet).
  vm_compute. reflexivity.
Defined.

Lemma keychain_consistent_run :
  exists keychain,
    deriveStxAddressChain ChainID.Testnet None
      {| Stub.node_secret := Some (list_byte_of_string "abandon");
         Stub.node_public := rev (list_byte_of_string "abandon") |} = ok keychain
    /\ getAddressFromPrivateKey (privateKey keychain) TransactionVersion.Testnet
       = ok (address keychain).
Proof.
  assert (H := keychain_consistent ChainID.Testnet None
                 {| Stub.node_secret := Some (list_byte_of_string "abandon");
                    Stub.node_public := rev (list_byte_of_string "abandon") |} _ eq_refl).
  destruct H as (? & ? & _ & _ & _ & Haddress).
  eexists. split; [reflexivity | exact Haddress].
Defined.

Lemma private_key_helpers_return_run :
  exists text,
    getBtcTaprootPrivateKey "abandon" 0 Mainnet = ok text
    /\ String.length text = 44
    /\ hex_decode text = ok (list_byte_of_string "abandonm/86'/0'/0'/0/0").
Proof.
  assert (H := proj2 (private_key_helpers_return "abandon" 0 Mainnet _ _ eq_refl eq_refl)
                 _ (list_byte_of_string "abandonm/86'/0'/0'/0/0") eq_refl eq_refl).
  destruct H as (text & Hrun & Hlength & Hdecode).
  exists text. split; [exact Hrun|]. split; [exact Hlength | exact Hdecode].
Defined.

Lemma mnemonic_callback_outcomes_run :
  encryptMnemonicWithCallback
    {| EncryptMnemonicArgs.password := "hunter2";
       EncryptMnemonicArgs.seed := "abandon ability able";
       EncryptMnemonicArgs.passwordHashGenerator :=
         fun _ => throw (JsError "hashing failed");
       EncryptMnemonicArgs.mnemonicEncryptionHandler := Stub.encryptionHandler |}
  = throw (JsError "hashing failed")
  /\ decryptMnemonicWithCallback
       {| DecryptMnemonicArgs.password := "hunter2";
          DecryptMnemonicArgs.encryptedSeed := "00";
          DecryptMnemonicArgs.passwordHashGenerator := Stub.hashGenerator;
          DecryptMnemonicArgs.mnemonicDecryptionHandler := Stub.decryptionHandler |}
     = throw (JsError "decryption failed").
Proof.
  split.
  - apply (proj1 (mnemonic_callback_outcomes "hunter2" "abandon ability able" "00"
                    (fun _ => throw (JsError "hashing failed"))
                    Stub.encryptionHandler Stub.decryptionHandler)
             (JsError "hashing failed") eq_refl).
  - rewrite (proj2 (proj2 (mnemonic_callback_outcomes "hunter2" "abandon ability able" "00"
                             Stub.hashGenerator Stub.encryptionHandler
                             Stub.decryptionHandler))
               _ eq_refl).
    vm_compute. reflexivity.
Defined.

Lemma encrypted_seed_is_hex_run :
  exists encryptedSeed,
    encryptMnemonicWithCallback
      {| EncryptMnemonicArgs.password := "hunter2";
         EncryptMnemonicArgs.seed := "abandon";
         EncryptMnemonicArgs.passwordHashGenerator := Stub.hashGenerator;
         EncryptMnemonicArgs.mnemonicEncryptionHandler := Stub.encryptionHandler |}
    = ok encryptedSeed
    /\ String.length encryptedSeed = 36
    /\ hex_decode encryptedSeed = ok (list_byte_of_string "hunter2NaClabandon").
Proof.
  eexists.
  split; [vm_compute; reflexivity|].
  assert (H := encrypted_seed_is_hex _ _
                 (eq_refl : encryptMnemonicWithCallback
                              {| EncryptMnemonicArgs.password := "hunter2";
                                 EncryptMnemonicArgs.seed := "abandon";
                                 EncryptMnemonicArgs.passwordHashGenerator := Stub.hashGenerator;
                                 EncryptMnemonicArgs.mnemonicEncryptionHandler :=
                                   Stub.encryptionHandler |} = ok _)).
  destruct H as (generated & buf & Hhash & Henc & _ & Hlength & _ & Hdecode).
  injection Hhash as <-. injection Henc as <-.
  split; [exact Hlength | exact Hdecode].
Defined.

(** *** Runs against collaborators with state *)

(** The counting collaborators answer by their arguments alone, although
    every call changes the world. *)
Lemma counting_effects_deterministic (watch_only : string -> bool) :
  DeterministicLibraries nat (Stub.counting_effects watch_only).
Proof. constructor; intros; intros w1 w2; reflexivity. Defined.

(** [newWallet], which draws its mnemonic from the entropy of the world, has
    no such property: started after a different number of calls it returns a
    different wallet. *)
Lemma newWallet_eff_depends_on_the_world :
  ~ same_outcome_in_every_world nat
      (newWallet_eff nat (K := Stub.constants) (Stub.counting_effects (fun _ => false))).
Proof.
  intros H. specialize (H 0 1). vm_compute in H. discriminate H.
Qed.

Lemma walletFromSeedPhrase_deterministic_run :
  (exists wallet,
      fst (walletFromSeedPhrase_eff nat (K := Stub.constants)
             (Stub.counting_effects (fun _ => false)) "abandon" 0 Mainnet 0) = ok wallet)
  /\ snd (walletFromSeedPhrase_eff nat (K := Stub.constants)
            (Stub.counting_effects (fun _ => false)) "abandon" 0 Mainnet 0) = 18
  /\ fst (walletFromSeedPhrase_eff nat (K := Stub.constants)
            (Stub.counting_effects (fun _ => false)) "abandon" 0 Mainnet 0)
     = fst (walletFromSeedPhrase_eff nat (K := Stub.constants)
              (Stub.counting_effects (fun _ => false)) "abandon" 0 Mainnet 18).
Proof.
  split; [eexists; vm_compute; reflexivity|].
  split; [vm_compute; reflexivity|].
  exact (proj1 (walletFromSeedPhrase_deterministic nat (K := Stub.constants)
                  (Stub.counting_effects (fun _ => false))
                  (counting_effects_deterministic _) "abandon" 0 Mainnet 0 18)).
Defined.
